(** * The HTTP request executor of npm-template

    A shallow embedding of the builder, the validator, the response
    classifiers and the retry/refresh engine ([call]), with the JavaScript
    values they inspect, followed by the properties of the execution engine. *)

From Stdlib Require Import ZArith String Ascii DecimalString.
From stdpp Require Import gmap strings list.

Open Scope string_scope.
Open Scope nat_scope.

(** ** JavaScript values *)

(** Numbers.  [Int z] stands for the double whose value is the integer [z]
    (status codes and retry budgets are integers); the three non-finite
    doubles are kept because [typeof] calls them numbers too and the
    validator lets them through.  Fractions and the sign of zero are not
    represented. *)
Inductive number :=
| Int (z : Z)
| NaN
| Infinity
| NegInfinity.

(** Function values.  The first five are the functions [HttpBuilder]'s
    constructor installs; [User name] is any function supplied by the
    caller. *)
Inductive fn :=
| noop                          (* () => {} *)
| failedStrategy_default        (* () => false *)
| noContentStrategy_default     (* () => true *)
| successStrategy_default       (* (res) => res.data *)
| refreshTokenStrategy_default  (* () => false *)
| User (name : string).

(** Values.  An object is a reference [VObj l] into the store, so that two
    references to one object see each other's writes. *)
Inductive value :=
| VUndefined
| VNull
| VBool (b : bool)
| VNum (n : number)
| VStr (s : string)
| VFun (f : fn)
| VObj (l : nat).

#[global] Instance number_eq_dec : EqDecision number.
Proof. solve_decision. Defined.
#[global] Instance fn_eq_dec : EqDecision fn.
Proof. solve_decision. Defined.
#[global] Instance value_eq_dec : EqDecision value.
Proof. solve_decision. Defined.

(** An object is its property map; the store is the list of the objects
    allocated so far, an object's reference being its index. *)
Abbreviation object := (gmap string value).
Abbreviation store := (list (gmap string value)).

(** [typeof v] *)
Definition typeof (v : value) : string :=
  match v with
  | VUndefined => "undefined"
  | VNull => "object"
  | VBool _ => "boolean"
  | VNum _ => "number"
  | VStr _ => "string"
  | VFun _ => "function"
  | VObj _ => "object"
  end.

(** ToBoolean: what [if (v)], [!v], [v || w] and [v && w] test. *)
Definition truthy (v : value) : bool :=
  match v with
  | VUndefined | VNull => false
  | VBool b => b
  | VNum (Int z) => negb (z =? 0)%Z
  | VNum NaN => false
  | VNum _ => true
  | VStr s => negb (String.eqb s "")
  | VFun _ | VObj _ => true
  end.

(** lodash's [isFunction] *)
Definition _isFunction (v : value) : bool :=
  match v with VFun _ => true | _ => false end.

(** [retry >= m] for a number [m]; [retry] counts recursive calls and is a
    natural number. *)
Definition number_ge (retry : nat) (m : number) : bool :=
  match m with
  | Int z => (z <=? Z.of_nat retry)%Z
  | NaN => false
  | Infinity => false
  | NegInfinity => true
  end.

(** Number::toString where it prints a number by its name or digit by
    digit: [toString] below applies it to nothing else. *)
Definition number_toString (n : number) : string :=
  match n with
  | Int z => NilZero.string_of_int (Z.to_int z)
  | NaN => "NaN"
  | Infinity => "Infinity"
  | NegInfinity => "-Infinity"
  end.

(** Whether Number::toString prints the number that way: it does for the
    non-finite ones and for an integer below 10^21 in absolute value; from
    10^21 on it switches to the exponent form. *)
Definition prints_plainly (n : number) : bool :=
  match n with
  | Int z => (Z.abs z <? 10 ^ 21)%Z
  | _ => true
  end.

(** ** Regular expressions

    The three literals of [src/index.js] are sequences of character atoms;
    [test] without anchors searches every position of the subject. *)
Inductive atom :=
| Lit (c : ascii)
| Digit.            (* [0-9] *)

Definition is_digit (c : ascii) : bool :=
  ((48 <=? nat_of_ascii c) && (nat_of_ascii c <=? 57))%nat.

Definition atom_matches (a : atom) (c : ascii) : bool :=
  match a with
  | Lit d => Ascii.eqb d c
  | Digit => is_digit c
  end.

Fixpoint matches_here (re : list atom) (s : string) : bool :=
  match re, s with
  | [], _ => true
  | _ :: _, EmptyString => false
  | a :: re', String c s' => atom_matches a c && matches_here re' s'
  end.

Fixpoint regexp_search (re : list atom) (s : string) : bool :=
  matches_here re s ||
  match s with
  | EmptyString => false
  | String _ s' => regexp_search re s'
  end.

Definition re_401 : list atom := [Lit "4"; Lit "0"; Lit "1"]%char.
Definition re_204 : list atom := [Lit "2"; Lit "0"; Lit "4"]%char.
Definition re_2xx : list atom := [Lit "2"%char; Digit; Digit].

(** ** The request descriptor and what the engine talks to *)

(** [class HttpRequest] of [src/client/index.js]: its five fields.  The
    fields are assigned once, by the constructor; [Headers] holds a reference
    and it is the referenced object that [addHeader] writes. *)
Record HttpRequest := {
  Url : value;
  Data : value;
  Headers : value;
  Params : value;
  ResponseType : value
}.

(** The options object handed to [axios]; an option that a client method
    leaves out reads as [undefined]. *)
Module Axios.
Record config := {
  url : value;
  data : value;
  params : value;
  responseType : value;
  headers : value;
  method : string
}.
End Axios.

(** What a callback is applied to: a response (any value) or the request
    descriptor. *)
Inductive argument :=
| ArgValue (v : value)
| ArgRequest (r : HttpRequest).

(** What the engine does to the outside, in order. *)
Inductive event :=
| Warned (message : string)                 (* console.warn(message) *)
| Requested (options : Axios.config)        (* axios(options) *)
| Called (f : fn) (args : list argument).   (* f(...args) *)

(** The JavaScript runtime, the network and the caller's functions.  Each
    answer may depend on everything that happened before (the events so far)
    and on the objects as they are at that moment.

    - [objectToString]: ToString of an object or a function, which runs the
      object's own [toString]; it also stands for the exponent form in which
      an integer from 10^21 on is printed, which is not spelled out here;
    - [coercedGe retry v]: [retry >= v] for a [v] that is not a number, which
      runs ToNumber on it;
    - [axios]: the value the awaited [axios(options)] yields (the interceptor
      of [src/client/index.js] turns a rejection into its error object, so
      there always is one);
    - [userFunction name args]: the awaited result of the caller's function
      [name].

    Callbacks and the transport are taken not to write the objects the engine
    works on, and not to throw. *)
Class Runtime := {
  objectToString : store → value → string;
  coercedGe : store → nat → value → bool;
  axios : list event → store → Axios.config → value;
  userFunction : list event → store → string → list argument → value
}.

(** ** Effects

    The engine runs against the store and leaves a trace of events.  A
    computation returns, throws the TypeError of the runtime (calling what is
    not a function, reading or writing a property of what has none), or, for
    the recursive [call] only, runs out of the fuel it was started with. *)
Record state := { heap : store; trace : list event }.

Inductive result (A : Type) :=
| Returned (a : A) (st : state)
| Threw (st : state)
| OutOfFuel.
Arguments Returned {A} a st.
Arguments Threw {A} st.
Arguments OutOfFuel {A}.

Definition M (A : Type) : Type := state → result A.

#[global] Instance M_ret : MRet M := λ A a st, Returned a st.
#[global] Instance M_bind : MBind M := λ A B k m st,
  match m st with
  | Returned a st' => k a st'
  | Threw st' => Threw st'
  | OutOfFuel => OutOfFuel
  end.

Definition throw {A} : M A := λ st, Threw st.

Definition outOfFuel {A} : M A := λ _, OutOfFuel.

Definition emit (e : event) : M unit :=
  λ st, Returned tt {| heap := heap st; trace := (trace st ++ [e])%list |}.

(** the [console.warn] calls of the validator, in order *)
Fixpoint console_warn (messages : list string) : M unit :=
  match messages with
  | [] => mret tt
  | message :: rest => emit (Warned message);; console_warn rest
  end.

Definition getHeap : M store := λ st, Returned (heap st) st.

Definition orThrow {A} (o : option A) : M A :=
  match o with Some a => mret a | None => throw end.

(** [{}]: a new object with no property *)
Definition alloc (o : object) : M value :=
  λ st, Returned (VObj (length (heap st)))
                 {| heap := (heap st ++ [o])%list; trace := trace st |}.

(** [target[key] = v] in strict code (a class body is strict): writing a
    property of a primitive throws.  The properties of functions are not
    tracked.  Objects are taken to be ordinary ones, extensible and with
    plain data properties: a frozen object, or a setter that throws, would
    make the write throw and is not represented. *)
Definition assign (target : value) (key : string) (v : value) : M unit :=
  match target with
  | VObj l => λ st, Returned tt {| heap := alter (insert key v) l (heap st);
                                   trace := trace st |}
  | VFun _ => mret tt
  | _ => throw
  end.

Section Engine.
Context `{Runtime}.

(** ToString *)
Definition toString (σ : store) (v : value) : string :=
  match v with
  | VUndefined => "undefined"
  | VNull => "null"
  | VBool true => "true"
  | VBool false => "false"
  | VNum n =>
      if prints_plainly n then number_toString n else objectToString σ v
  | VStr s => s
  | VFun _ | VObj _ => objectToString σ v
  end.

(** [re.test(v)] *)
Definition test (re : list atom) (σ : store) (v : value) : bool :=
  regexp_search re (toString σ v).

(** [v.k].  [None] is the TypeError of reading a property of [undefined] or
    [null].  Only the properties of objects are tracked: a primitive or a
    function has none of the properties the engine asks for. *)
Definition get (σ : store) (v : value) (k : string) : option value :=
  match v with
  | VUndefined | VNull => None
  | VObj l => Some (default VUndefined (σ !! l ≫= lookup k))
  | _ => Some VUndefined
  end.

(** [retry >= maxRetry] *)
Definition ge (σ : store) (retry : nat) (maxRetry : value) : bool :=
  match maxRetry with
  | VNum m => number_ge retry m
  | _ => coercedGe σ retry maxRetry
  end.

(** ** Response classification: [src/index.js], lines 5 to 21 *)

(** [res.status || (res.response && res.response.status)] *)
Definition status_or_nested (σ : store) (res : value) : option value :=
  status ← get σ res "status";
  if truthy status then Some status
  else
    response ← get σ res "response";
    if truthy response then get σ response "status" else Some response.

Definition isAFailedHttpResponse (σ : store) (res : value) : option bool :=
  if decide (res = VUndefined) then Some true
  else s ← status_or_nested σ res; Some (negb (test re_2xx σ s)).

Definition unauthorized (σ : store) (res : value) : option bool :=
  s ← (if truthy res then status_or_nested σ res else Some res);
  Some (test re_401 σ s).

Definition noContent (σ : store) (res : value) : option bool :=
  s ← get σ res "status"; Some (test re_204 σ s).

(** What a function returns; [None] when its body throws.
    [(res) => res.data] reads [data] off its first parameter; a request
    descriptor has no such property. *)
Definition fn_value (tr : list event) (σ : store) (f : fn)
    (args : list argument) : option value :=
  match f with
  | noop => Some VUndefined
  | failedStrategy_default => Some (VBool false)
  | noContentStrategy_default => Some (VBool true)
  | successStrategy_default =>
      match args with
      | ArgValue res :: _ => get σ res "data"
      | ArgRequest _ :: _ => Some VUndefined
      | [] => None
      end
  | refreshTokenStrategy_default => Some (VBool false)
  | User name => Some (userFunction tr σ name args)
  end.

Definition fn_result (f : fn) (args : list argument) : M value :=
  λ st, match fn_value (trace st) (heap st) f args with
        | Some v => Returned v st
        | None => Threw st
        end.

(** [await v(...args)] *)
Definition invoke (v : value) (args : list argument) : M value :=
  match v with
  | VFun f => emit (Called f args);; fn_result f args
  | _ => throw
  end.

(** [l.forEach(f)]; what [f] returns is dropped. *)
Fixpoint forEach (l : list value) (f : value → M value) : M unit :=
  match l with
  | [] => mret tt
  | x :: l' => f x;; forEach l' f
  end.

(** ** [src/client/index.js] *)

Definition HttpMethods : list (string * string) :=
  [("GET", "Get"); ("POST", "Post"); ("PUT", "Put"); ("DELETE", "Delete")].

(** [new HttpRequest({ url, body, headers, queryParams, responseType })] *)
Definition new_HttpRequest (url body headers queryParams responseType : value)
  : M HttpRequest :=
  Headers ← (if truthy headers then mret headers else alloc ∅);
  mret {| Url := url; Data := body; Headers := Headers;
          Params := queryParams; ResponseType := responseType |}.

(** [request.addHeader(key, value)] *)
Definition addHeader (this : HttpRequest) (key : string) (v : value) : M unit :=
  assign (Headers this) key v.

(** [HttpClient[method]]: the four client functions, each given by the
    options it hands to [axios].  The property key is the method converted to
    a string.  The members [HttpClient] inherits from [Object.prototype] are
    not modelled; the validator lets none of their names through. *)
Definition HttpClient (σ : store) (method : value)
  : option (HttpRequest → Axios.config) :=
  let key := toString σ method in
  if decide (key = "Get") then
    Some (λ request,
      {| Axios.url := Url request; Axios.data := VUndefined;
         Axios.params := Params request;
         Axios.responseType := ResponseType request;
         Axios.headers := Headers request; Axios.method := "GET" |})
  else if decide (key = "Post") then
    Some (λ request,
      {| Axios.url := Url request; Axios.data := Data request;
         Axios.params := VUndefined; Axios.responseType := VUndefined;
         Axios.headers := Headers request; Axios.method := "POST" |})
  else if decide (key = "Put") then
    Some (λ request,
      {| Axios.url := Url request; Axios.data := Data request;
         Axios.params := Params request; Axios.responseType := VUndefined;
         Axios.headers := Headers request; Axios.method := "PUT" |})
  else if decide (key = "Delete") then
    Some (λ request,
      {| Axios.url := Url request; Axios.data := Data request;
         Axios.params := Params request; Axios.responseType := VUndefined;
         Axios.headers := Headers request; Axios.method := "DELETE" |})
  else None.

(** [await axios(options)] *)
Definition await_axios (options : Axios.config) : M value :=
  λ st, Returned (axios (trace st) (heap st) options) st.

(** [await HttpClient[method](request)] *)
Definition dispatch (method : value) (request : HttpRequest) : M value :=
  σ ← getHeap;
  client ← orThrow (HttpClient σ method);
  emit (Requested (client request));;
  await_axios (client request).

(** ** [src/index.js]: the configuration and its validation *)

(** The object [send] assembles; [HttpBuilder] keeps the same eighteen
    fields.  The four side-effect fields are arrays and stay arrays (the
    builder only pushes onto them). *)
Record Configuration := {
  method : value;
  url : value;
  headers : value;
  bearer : value;
  queryParams : value;
  responseType : value;
  body : value;
  maxRetry : value;
  retryFallbackStrategy : value;
  unauthorizedStrategy : value;
  failedStrategy : value;
  noContentStrategy : value;
  successStrategy : value;
  refreshTokenStrategy : value;
  failedSideEffects : list value;
  successSideEffects : list value;
  unauthorizedSideEffects : list value;
  retryFallbackSideEffects : list value
}.

(** [Object.values(HttpMethods).includes(method)] compares with
    SameValueZero, which on the values represented here is equality. *)
Definition methodInvalid (method : value) : bool :=
  bool_decide (method = VNull)
  || negb (bool_decide (method ∈ (VStr <$> HttpMethods.*2))).

Definition strategiesInvalid (strategies : list value) : bool :=
  negb (forallb _isFunction strategies).

(** [console.warn(message); return false], the warning returned next to the
    verdict. *)
Definition warnAndInvalidate (message : string) : bool * list string :=
  (false, [message]).

Definition validConfiguration (configuration : Configuration)
  : bool * list string :=
  if methodInvalid (method configuration) then
    warnAndInvalidate "Http method not defined or is invalid"
  else if negb (truthy (url configuration)) then
    warnAndInvalidate "No url configured"
  else if negb (String.eqb (typeof (headers configuration)) "object") then
    warnAndInvalidate "Headers must be an object"
  else if negb (String.eqb (typeof (queryParams configuration)) "object") then
    warnAndInvalidate "Parameters must be an object"
  else if negb (String.eqb (typeof (maxRetry configuration)) "number") then
    warnAndInvalidate "Max retries must be a number"
  else
    let strategies :=
      ([retryFallbackStrategy configuration; unauthorizedStrategy configuration;
        failedStrategy configuration; noContentStrategy configuration;
        successStrategy configuration]
       ++ failedSideEffects configuration
       ++ successSideEffects configuration
       ++ [refreshTokenStrategy configuration])%list in
    if strategiesInvalid strategies then
      warnAndInvalidate "Strategies must be functions"
    else (true, []).

(** ** [src/index.js]: the engine *)

(** [call(configuration, retry)].  Each recursive call takes one unit of
    fuel. *)
Fixpoint call (fuel : nat) (configuration : Configuration) (retry : nat)
  : M value :=
  match fuel with
  | O => outOfFuel
  | S fuel' =>
    (* build request object *)
    request ← new_HttpRequest (url configuration) (body configuration)
                (headers configuration) (queryParams configuration)
                (responseType configuration);
    (* handle retries *)
    σ ← getHeap;
    if ge σ retry (maxRetry configuration) then
      forEach (retryFallbackSideEffects configuration)
              (λ rfse, invoke rfse [ArgRequest request]);;
      invoke (retryFallbackStrategy configuration) [ArgRequest request]
    else
      (* configure final request with auth headers *)
      (if truthy (bearer configuration)
       then addHeader request "Authorization"
              (VStr ("Bearer " ++ toString σ (bearer configuration)))
       else mret tt);;
      (* make request *)
      response ← dispatch (method configuration) request;
      σ ← getHeap;
      isUnauthorized ← orThrow (unauthorized σ response);
      if (isUnauthorized : bool) then
        (* try to refresh token *)
        refreshed ← invoke (refreshTokenStrategy configuration) [];
        if truthy refreshed then call fuel' configuration (S retry)
        else
          forEach (unauthorizedSideEffects configuration)
                  (λ useff, invoke useff [ArgValue response]);;
          invoke (unauthorizedStrategy configuration) [ArgValue response]
      else
        isFailed ← orThrow (isAFailedHttpResponse σ response);
        if (isFailed : bool) then
          forEach (failedSideEffects configuration)
                  (λ fse, invoke fse [ArgValue response]);;
          invoke (failedStrategy configuration) [ArgValue response]
        else
          forEach (successSideEffects configuration)
                  (λ sse, invoke sse [ArgValue response]);;
          isNoContent ← orThrow (noContent σ response);
          let successStrategy :=
            if (isNoContent : bool) then noContentStrategy configuration
            else successStrategy configuration in
          invoke successStrategy [ArgValue response]
  end.

(** ** [src/index.js]: [class HttpBuilder]

    The builder object has the fields of the configuration, so it is a
    [Configuration] here.  A setter is given by the field it assigns; all
    return [this] except [withMaxRetries], which returns nothing.  The
    setters of the query parameters, the response type, the body and the
    five terminal strategies assign their field in the same way; they come
    after the engine's vocabulary. *)

(** [HttpMethods[name]] *)
Definition HttpMethods_at (name : string) : value :=
  default VUndefined
    (VStr <$> (list_to_map HttpMethods : gmap string string) !! name).

(** The fields the constructor assigns, given the new empty object that
    becomes [headers]. *)
Definition HttpBuilder_fields (headers : value) : Configuration :=
  {| method := VNull; url := VNull; bearer := VNull; headers := headers;
     queryParams := VNull; responseType := VNull; body := VNull;
     maxRetry := VNum (Int 2);
     retryFallbackStrategy := VFun noop;
     unauthorizedStrategy := VFun noop;
     failedStrategy := VFun failedStrategy_default;
     noContentStrategy := VFun noContentStrategy_default;
     successStrategy := VFun successStrategy_default;
     retryFallbackSideEffects := []; unauthorizedSideEffects := [];
     failedSideEffects := []; successSideEffects := [];
     refreshTokenStrategy := VFun refreshTokenStrategy_default |}.

(** [new HttpBuilder()] *)
Definition new_HttpBuilder : M Configuration :=
  headers ← alloc ∅;
  mret (HttpBuilder_fields headers).

(** [array.push(x)] *)
Definition push (array : list value) (x : value) : list value :=
  (array ++ [x])%list.

Definition asGet (this : Configuration) : Configuration :=
  {| method := HttpMethods_at "GET"; url := url this; headers := headers this;
     bearer := bearer this; queryParams := queryParams this;
     responseType := responseType this; body := body this;
     maxRetry := maxRetry this;
     retryFallbackStrategy := retryFallbackStrategy this;
     unauthorizedStrategy := unauthorizedStrategy this;
     failedStrategy := failedStrategy this;
     noContentStrategy := noContentStrategy this;
     successStrategy := successStrategy this;
     refreshTokenStrategy := refreshTokenStrategy this;
     failedSideEffects := failedSideEffects this;
     successSideEffects := successSideEffects this;
     unauthorizedSideEffects := unauthorizedSideEffects this;
     retryFallbackSideEffects := retryFallbackSideEffects this |}.

Definition asPost (this : Configuration) : Configuration :=
  {| method := HttpMethods_at "POST"; url := url this; headers := headers this;
     bearer := bearer this; queryParams := queryParams this;
     responseType := responseType this; body := body this;
     maxRetry := maxRetry this;
     retryFallbackStrategy := retryFallbackStrategy this;
     unauthorizedStrategy := unauthorizedStrategy this;
     failedStrategy := failedStrategy this;
     noContentStrategy := noContentStrategy this;
     successStrategy := successStrategy this;
     refreshTokenStrategy := refreshTokenStrategy this;
     failedSideEffects := failedSideEffects this;
     successSideEffects := successSideEffects this;
     unauthorizedSideEffects := unauthorizedSideEffects this;
     retryFallbackSideEffects := retryFallbackSideEffects this |}.

Definition asPut (this : Configuration) : Configuration :=
  {| method := HttpMethods_at "PUT"; url := url this; headers := headers this;
     bearer := bearer this; queryParams := queryParams this;
     responseType := responseType this; body := body this;
     maxRetry := maxRetry this;
     retryFallbackStrategy := retryFallbackStrategy this;
     unauthorizedStrategy := unauthorizedStrategy this;
     failedStrategy := failedStrategy this;
     noContentStrategy := noContentStrategy this;
     successStrategy := successStrategy this;
     refreshTokenStrategy := refreshTokenStrategy this;
     failedSideEffects := failedSideEffects this;
     successSideEffects := successSideEffects this;
     unauthorizedSideEffects := unauthorizedSideEffects this;
     retryFallbackSideEffects := retryFallbackSideEffects this |}.

Definition asDelete (this : Configuration) : Configuration :=
  {| method := HttpMethods_at "DELETE"; url := url this;
     headers := headers this; bearer := bearer this;
     queryParams := queryParams this; responseType := responseType this;
     body := body this; maxRetry := maxRetry this;
     retryFallbackStrategy := retryFallbackStrategy this;
     unauthorizedStrategy := unauthorizedStrategy this;
     failedStrategy := failedStrategy this;
     noContentStrategy := noContentStrategy this;
     successStrategy := successStrategy this;
     refreshTokenStrategy := refreshTokenStrategy this;
     failedSideEffects := failedSideEffects this;
     successSideEffects := successSideEffects this;
     unauthorizedSideEffects := unauthorizedSideEffects this;
     retryFallbackSideEffects := retryFallbackSideEffects this |}.

Definition withUrl (url' : value) (this : Configuration)
  : Configuration :=
  {| method := method this; url := url'; headers := headers this;
     bearer := bearer this; queryParams := queryParams this;
     responseType := responseType this; body := body this;
     maxRetry := maxRetry this;
     retryFallbackStrategy := retryFallbackStrategy this;
     unauthorizedStrategy := unauthorizedStrategy this;
     failedStrategy := failedStrategy this;
     noContentStrategy := noContentStrategy this;
     successStrategy := successStrategy this;
     refreshTokenStrategy := refreshTokenStrategy this;
     failedSideEffects := failedSideEffects this;
     successSideEffects := successSideEffects this;
     unauthorizedSideEffects := unauthorizedSideEffects this;
     retryFallbackSideEffects := retryFallbackSideEffects this |}.

Definition withAuthorization (bearer' : value) (this : Configuration)
  : Configuration :=
  {| method := method this; url := url this; headers := headers this;
     bearer := bearer'; queryParams := queryParams this;
     responseType := responseType this; body := body this;
     maxRetry := maxRetry this;
     retryFallbackStrategy := retryFallbackStrategy this;
     unauthorizedStrategy := unauthorizedStrategy this;
     failedStrategy := failedStrategy this;
     noContentStrategy := noContentStrategy this;
     successStrategy := successStrategy this;
     refreshTokenStrategy := refreshTokenStrategy this;
     failedSideEffects := failedSideEffects this;
     successSideEffects := successSideEffects this;
     unauthorizedSideEffects := unauthorizedSideEffects this;
     retryFallbackSideEffects := retryFallbackSideEffects this |}.

Definition withHeaders (headers' : value) (this : Configuration)
  : Configuration :=
  {| method := method this; url := url this; headers := headers';
     bearer := bearer this; queryParams := queryParams this;
     responseType := responseType this; body := body this;
     maxRetry := maxRetry this;
     retryFallbackStrategy := retryFallbackStrategy this;
     unauthorizedStrategy := unauthorizedStrategy this;
     failedStrategy := failedStrategy this;
     noContentStrategy := noContentStrategy this;
     successStrategy := successStrategy this;
     refreshTokenStrategy := refreshTokenStrategy this;
     failedSideEffects := failedSideEffects this;
     successSideEffects := successSideEffects this;
     unauthorizedSideEffects := unauthorizedSideEffects this;
     retryFallbackSideEffects := retryFallbackSideEffects this |}.

Definition withMaxRetries (retries : value) (this : Configuration)
  : Configuration :=
  {| method := method this; url := url this; headers := headers this;
     bearer := bearer this; queryParams := queryParams this;
     responseType := responseType this; body := body this; maxRetry := retries;
     retryFallbackStrategy := retryFallbackStrategy this;
     unauthorizedStrategy := unauthorizedStrategy this;
     failedStrategy := failedStrategy this;
     noContentStrategy := noContentStrategy this;
     successStrategy := successStrategy this;
     refreshTokenStrategy := refreshTokenStrategy this;
     failedSideEffects := failedSideEffects this;
     successSideEffects := successSideEffects this;
     unauthorizedSideEffects := unauthorizedSideEffects this;
     retryFallbackSideEffects := retryFallbackSideEffects this |}.

Definition withRetryFallbackSideEffects (strategy : value) (this : Configuration)
  : Configuration :=
  {| method := method this; url := url this; headers := headers this;
     bearer := bearer this; queryParams := queryParams this;
     responseType := responseType this; body := body this;
     maxRetry := maxRetry this;
     retryFallbackStrategy := retryFallbackStrategy this;
     unauthorizedStrategy := unauthorizedStrategy this;
     failedStrategy := failedStrategy this;
     noContentStrategy := noContentStrategy this;
     successStrategy := successStrategy this;
     refreshTokenStrategy := refreshTokenStrategy this;
     failedSideEffects := failedSideEffects this;
     successSideEffects := successSideEffects this;
     unauthorizedSideEffects := unauthorizedSideEffects this;
     retryFallbackSideEffects := push (retryFallbackSideEffects this) strategy |}.

Definition withUnauthorizedSideEffects (strategy : value) (this : Configuration)
  : Configuration :=
  {| method := method this; url := url this; headers := headers this;
     bearer := bearer this; queryParams := queryParams this;
     responseType := responseType this; body := body this;
     maxRetry := maxRetry this;
     retryFallbackStrategy := retryFallbackStrategy this;
     unauthorizedStrategy := unauthorizedStrategy this;
     failedStrategy := failedStrategy this;
     noContentStrategy := noContentStrategy this;
     successStrategy := successStrategy this;
     refreshTokenStrategy := refreshTokenStrategy this;
     failedSideEffects := failedSideEffects this;
     successSideEffects := successSideEffects this;
     unauthorizedSideEffects := push (unauthorizedSideEffects this) strategy;
     retryFallbackSideEffects := retryFallbackSideEffects this |}.

Definition withFailedSideEffect (strategy : value) (this : Configuration)
  : Configuration :=
  {| method := method this; url := url this; headers := headers this;
     bearer := bearer this; queryParams := queryParams this;
     responseType := responseType this; body := body this;
     maxRetry := maxRetry this;
     retryFallbackStrategy := retryFallbackStrategy this;
     unauthorizedStrategy := unauthorizedStrategy this;
     failedStrategy := failedStrategy this;
     noContentStrategy := noContentStrategy this;
     successStrategy := successStrategy this;
     refreshTokenStrategy := refreshTokenStrategy this;
     failedSideEffects := push (failedSideEffects this) strategy;
     successSideEffects := successSideEffects this;
     unauthorizedSideEffects := unauthorizedSideEffects this;
     retryFallbackSideEffects := retryFallbackSideEffects this |}.

Definition withSuccessSideEffect (strategy : value) (this : Configuration)
  : Configuration :=
  {| method := method this; url := url this; headers := headers this;
     bearer := bearer this; queryParams := queryParams this;
     responseType := responseType this; body := body this;
     maxRetry := maxRetry this;
     retryFallbackStrategy := retryFallbackStrategy this;
     unauthorizedStrategy := unauthorizedStrategy this;
     failedStrategy := failedStrategy this;
     noContentStrategy := noContentStrategy this;
     successStrategy := successStrategy this;
     refreshTokenStrategy := refreshTokenStrategy this;
     failedSideEffects := failedSideEffects this;
     successSideEffects := push (successSideEffects this) strategy;
     unauthorizedSideEffects := unauthorizedSideEffects this;
     retryFallbackSideEffects := retryFallbackSideEffects this |}.

Definition withRefreshTokenStrategy (strategy : value) (this : Configuration)
  : Configuration :=
  {| method := method this; url := url this; headers := headers this;
     bearer := bearer this; queryParams := queryParams this;
     responseType := responseType this; body := body this;
     maxRetry := maxRetry this;
     retryFallbackStrategy := retryFallbackStrategy this;
     unauthorizedStrategy := unauthorizedStrategy this;
     failedStrategy := failedStrategy this;
     noContentStrategy := noContentStrategy this;
     successStrategy := successStrategy this; refreshTokenStrategy := strategy;
     failedSideEffects := failedSideEffects this;
     successSideEffects := successSideEffects this;
     unauthorizedSideEffects := unauthorizedSideEffects this;
     retryFallbackSideEffects := retryFallbackSideEffects this |}.

(** [send()]: assemble the configuration, validate it, and run the engine
    only if it is valid; otherwise the function falls off its end and yields
    [undefined]. *)
Definition send (fuel : nat) (this : Configuration) : M value :=
  let configuration :=
    {| method := method this; url := url this; headers := headers this;
       bearer := bearer this; queryParams := queryParams this;
       responseType := responseType this; body := body this;
       maxRetry := maxRetry this;
       retryFallbackStrategy := retryFallbackStrategy this;
       unauthorizedStrategy := unauthorizedStrategy this;
       failedStrategy := failedStrategy this;
       noContentStrategy := noContentStrategy this;
       successStrategy := successStrategy this;
       refreshTokenStrategy := refreshTokenStrategy this;
       failedSideEffects := failedSideEffects this;
       successSideEffects := successSideEffects this;
       unauthorizedSideEffects := unauthorizedSideEffects this;
       retryFallbackSideEffects := retryFallbackSideEffects this |} in
  let '(valid, warnings) := validConfiguration configuration in
  console_warn warnings;;
  if valid then call fuel configuration 0 else mret VUndefined.

(** ** Vocabulary of the statements *)

(** The descriptor [call] builds on entry, and the store once it is built:
    the descriptor's headers are the configuration's own headers value when
    that is truthy, and a new empty object otherwise. *)
Definition request_of (configuration : Configuration) (σ : store)
  : HttpRequest :=
  {| Url := url configuration; Data := body configuration;
     Headers := if truthy (headers configuration) then headers configuration
                else VObj (length σ);
     Params := queryParams configuration;
     ResponseType := responseType configuration |}.

Definition heap_built (configuration : Configuration) (σ : store) : store :=
  if truthy (headers configuration) then σ else (σ ++ [∅])%list.

(** One attempt of [call] up to the response: lines 71 to 77 and 84 to 86,
    what [call] runs when the budget is not exhausted. *)
Definition attempt (configuration : Configuration)
  : M (HttpRequest * value) :=
  request ← new_HttpRequest (url configuration) (body configuration)
              (headers configuration) (queryParams configuration)
              (responseType configuration);
  σ ← getHeap;
  (if truthy (bearer configuration)
   then addHeader request "Authorization"
          (VStr ("Bearer " ++ toString σ (bearer configuration)))
   else mret tt);;
  response ← dispatch (method configuration) request;
  mret (request, response).

(** The four classes, in the order in which [call] tests for them
    (lines 87, 96 and 103); [None] when a test throws. *)
Inductive classification := Unauthorized | Failed | NoContent | Success.

Definition classify (σ : store) (res : value) : option classification :=
  isUnauthorized ← unauthorized σ res;
  if (isUnauthorized : bool) then Some Unauthorized
  else
    isFailed ← isAFailedHttpResponse σ res;
    if (isFailed : bool) then Some Failed
    else
      isNoContent ← noContent σ res;
      Some (if (isNoContent : bool) then NoContent else Success).

(** What follows the refresh attempt (lines 89 to 95). *)
Definition after_refresh (fuel : nat) (configuration : Configuration)
    (retry : nat) (response : value) : M value :=
  refreshed ← invoke (refreshTokenStrategy configuration) [];
  if truthy refreshed then call fuel configuration (S retry)
  else
    forEach (unauthorizedSideEffects configuration)
            (λ useff, invoke useff [ArgValue response]);;
    invoke (unauthorizedStrategy configuration) [ArgValue response].

End Engine.

(** The calls of the functions [fs] on [args], in order. *)
Definition Called_each (fs : list fn) (args : list argument) : list event :=
  (λ f, Called f args) <$> fs.

Definition is_request (e : event) : bool :=
  match e with Requested _ => true | _ => false end.

(** The number of transport dispatches in a trace. *)
Definition requests (tr : list event) : nat := length (filter is_request tr).
#[global] Arguments requests : simpl never.

(** The state a terminated computation ends in. *)
Definition final_state {A} (r : result A) : option state :=
  match r with
  | Returned _ st => Some st
  | Threw st => Some st
  | OutOfFuel => None
  end.

Definition logged (st : state) (es : list event) : state :=
  {| heap := heap st; trace := (trace st ++ es)%list |}.

(** The arguments on which every function returns: a request descriptor, or
    a value that is neither [undefined] nor [null] (the builder's
    [(res) => res.data] throws on those two). *)
Definition applicable (args : list argument) : Prop :=
  match args with
  | ArgValue v :: _ => v ≠ VUndefined ∧ v ≠ VNull
  | ArgRequest _ :: _ => True
  | [] => False
  end.

(** A computation that terminates without touching the store and without
    dispatching. *)
Definition still {A} (r : result A) (st : state) : Prop :=
  ∃ st', final_state r = Some st'
       ∧ heap st' = heap st
       ∧ requests (trace st') = requests (trace st).

(** From [σ] to [σ'] no object is lost, and no property of an object of [σ]
    has changed other than [Authorization] of the configuration's headers
    object. *)
Definition unchanged_but_authorization (configuration : Configuration)
    (σ σ' : store) : Prop :=
  length σ ≤ length σ'
  ∧ ∀ (l : nat) (k : string),
      l < length σ →
      (headers configuration = VObj l → k ≠ "Authorization") →
      (σ' !! l ≫= lookup k : option value) = σ !! l ≫= lookup k.

(** ** A scripted runtime, for running the engine on examples

    The k-th dispatch is answered by the k-th value of [responses]
    ([undefined] past the end); the caller's function [name] returns
    [answers name]; objects print as plain objects do. *)
Definition scripted (responses : list value) (answers : string → value)
  : Runtime :=
  {| objectToString := λ _ _, "[object Object]";
     coercedGe := λ _ _ _, false;
     axios := λ tr _ _, default VUndefined (responses !! pred (requests tr));
     userFunction := λ _ _ name _, answers name |}.

(** ** Example data

    Four responses and the empty headers object of a new builder; the
    builder of the end-to-end examples, a GET of [https://api.test/x]; the
    descriptor and the [axios] options it leads to. *)
Definition example_responses : store :=
  [ {[ "status" := VNum (Int 401) ]};
    {[ "status" := VNum (Int 200); "data" := VStr "ok" ]};
    {[ "status" := VNum (Int 204) ]};
    {[ "status" := VNum (Int 200); "response" := VObj 0 ]} ].

Definition example_objects : store := (example_responses ++ [∅])%list.

Definition example_state : state := {| heap := example_objects; trace := [] |}.

Definition example_builder : Configuration :=
  asGet (withUrl (VStr "https://api.test/x") (HttpBuilder_fields (VObj 4))).

Definition example_request : HttpRequest :=
  {| Url := VStr "https://api.test/x"; Data := VNull; Headers := VObj 4;
     Params := VNull; ResponseType := VNull |}.

Definition example_options : Axios.config :=
  {| Axios.url := VStr "https://api.test/x"; Axios.data := VUndefined;
     Axios.params := VNull; Axios.responseType := VNull;
     Axios.headers := VObj 4; Axios.method := "GET" |}.

(** The caller's function [refresh] returns [true], every other one
    [undefined]. *)
Definition example_answers (name : string) : value :=
  if decide (name = "refresh") then VBool true else VUndefined.

(** The state after the first dispatch of the example builder. *)
Definition example_dispatched : state :=
  {| heap := example_objects; trace := [Requested example_options] |}.

(** The example builder with a bearer token and a budget of one attempt, its
    refresh strategy being the caller's [refresh]; and the store once the
    bearer has been attached. *)
Definition example_bearer_builder : Configuration :=
  withMaxRetries (VNum (Int 1))
    (withRefreshTokenStrategy (VFun (User "refresh"))
       (withAuthorization (VStr "t") example_builder)).

Definition example_objects_with_bearer : store :=
  alter (insert "Authorization" (VStr "Bearer t")) 4 example_objects.

(** ** [class HttpBuilder]: the remaining setters

    The setters of the query parameters, the response type, the body and the
    five terminal strategies; each assigns its field and returns [this]. *)

Definition withParams (params : value) (this : Configuration)
  : Configuration :=
  {| method := method this; url := url this; headers := headers this;
     bearer := bearer this; queryParams := params;
     responseType := responseType this; body := body this;
     maxRetry := maxRetry this;
     retryFallbackStrategy := retryFallbackStrategy this;
     unauthorizedStrategy := unauthorizedStrategy this;
     failedStrategy := failedStrategy this;
     noContentStrategy := noContentStrategy this;
     successStrategy := successStrategy this;
     refreshTokenStrategy := refreshTokenStrategy this;
     failedSideEffects := failedSideEffects this;
     successSideEffects := successSideEffects this;
     unauthorizedSideEffects := unauthorizedSideEffects this;
     retryFallbackSideEffects := retryFallbackSideEffects this |}.

Definition withResponseType (responseType' : value) (this : Configuration)
  : Configuration :=
  {| method := method this; url := url this; headers := headers this;
     bearer := bearer this; queryParams := queryParams this;
     responseType := responseType'; body := body this;
     maxRetry := maxRetry this;
     retryFallbackStrategy := retryFallbackStrategy this;
     unauthorizedStrategy := unauthorizedStrategy this;
     failedStrategy := failedStrategy this;
     noContentStrategy := noContentStrategy this;
     successStrategy := successStrategy this;
     refreshTokenStrategy := refreshTokenStrategy this;
     failedSideEffects := failedSideEffects this;
     successSideEffects := successSideEffects this;
     unauthorizedSideEffects := unauthorizedSideEffects this;
     retryFallbackSideEffects := retryFallbackSideEffects this |}.

Definition withBody (body' : value) (this : Configuration)
  : Configuration :=
  {| method := method this; url := url this; headers := headers this;
     bearer := bearer this; queryParams := queryParams this;
     responseType := responseType this; body := body';
     maxRetry := maxRetry this;
     retryFallbackStrategy := retryFallbackStrategy this;
     unauthorizedStrategy := unauthorizedStrategy this;
     failedStrategy := failedStrategy this;
     noContentStrategy := noContentStrategy this;
     successStrategy := successStrategy this;
     refreshTokenStrategy := refreshTokenStrategy this;
     failedSideEffects := failedSideEffects this;
     successSideEffects := successSideEffects this;
     unauthorizedSideEffects := unauthorizedSideEffects this;
     retryFallbackSideEffects := retryFallbackSideEffects this |}.

Definition withRetryFallbackStrategy (strategy : value) (this : Configuration)
  : Configuration :=
  {| method := method this; url := url this; headers := headers this;
     bearer := bearer this; queryParams := queryParams this;
     responseType := responseType this; body := body this;
     maxRetry := maxRetry this; retryFallbackStrategy := strategy;
     unauthorizedStrategy := unauthorizedStrategy this;
     failedStrategy := failedStrategy this;
     noContentStrategy := noContentStrategy this;
     successStrategy := successStrategy this;
     refreshTokenStrategy := refreshTokenStrategy this;
     failedSideEffects := failedSideEffects this;
     successSideEffects := successSideEffects this;
     unauthorizedSideEffects := unauthorizedSideEffects this;
     retryFallbackSideEffects := retryFallbackSideEffects this |}.

Definition withUnauthorizedStrategy (strategy : value) (this : Configuration)
  : Configuration :=
  {| method := method this; url := url this; headers := headers this;
     bearer := bearer this; queryParams := queryParams this;
     responseType := responseType this; body := body this;
     maxRetry := maxRetry this;
     retryFallbackStrategy := retryFallbackStrategy this;
     unauthorizedStrategy := strategy; failedStrategy := failedStrategy this;
     noContentStrategy := noContentStrategy this;
     successStrategy := successStrategy this;
     refreshTokenStrategy := refreshTokenStrategy this;
     failedSideEffects := failedSideEffects this;
     successSideEffects := successSideEffects this;
     unauthorizedSideEffects := unauthorizedSideEffects this;
     retryFallbackSideEffects := retryFallbackSideEffects this |}.

Definition withFailedStrategy (strategy : value) (this : Configuration)
  : Configuration :=
  {| method := method this; url := url this; headers := headers this;
     bearer := bearer this; queryParams := queryParams this;
     responseType := responseType this; body := body this;
     maxRetry := maxRetry this;
     retryFallbackStrategy := retryFallbackStrategy this;
     unauthorizedStrategy := unauthorizedStrategy this;
     failedStrategy := strategy; noContentStrategy := noContentStrategy this;
     successStrategy := successStrategy this;
     refreshTokenStrategy := refreshTokenStrategy this;
     failedSideEffects := failedSideEffects this;
     successSideEffects := successSideEffects this;
     unauthorizedSideEffects := unauthorizedSideEffects this;
     retryFallbackSideEffects := retryFallbackSideEffects this |}.

Definition withNoContentStrategy (strategy : value) (this : Configuration)
  : Configuration :=
  {| method := method this; url := url this; headers := headers this;
     bearer := bearer this; queryParams := queryParams this;
     responseType := responseType this; body := body this;
     maxRetry := maxRetry this;
     retryFallbackStrategy := retryFallbackStrategy this;
     unauthorizedStrategy := unauthorizedStrategy this;
     failedStrategy := failedStrategy this; noContentStrategy := strategy;
     successStrategy := successStrategy this;
     refreshTokenStrategy := refreshTokenStrategy this;
     failedSideEffects := failedSideEffects this;
     successSideEffects := successSideEffects this;
     unauthorizedSideEffects := unauthorizedSideEffects this;
     retryFallbackSideEffects := retryFallbackSideEffects this |}.

Definition withSuccessStrategy (strategy : value) (this : Configuration)
  : Configuration :=
  {| method := method this; url := url this; headers := headers this;
     bearer := bearer this; queryParams := queryParams this;
     responseType := responseType this; body := body this;
     maxRetry := maxRetry this;
     retryFallbackStrategy := retryFallbackStrategy this;
     unauthorizedStrategy := unauthorizedStrategy this;
     failedStrategy := failedStrategy this;
     noContentStrategy := noContentStrategy this; successStrategy := strategy;
     refreshTokenStrategy := refreshTokenStrategy this;
     failedSideEffects := failedSideEffects this;
     successSideEffects := successSideEffects this;
     unauthorizedSideEffects := unauthorizedSideEffects this;
     retryFallbackSideEffects := retryFallbackSideEffects this |}.

(** ** More vocabulary and example data *)

(** The class of an HTTP status code, as the standard reads it: 401 is
    unauthorized, 204 is no content, every other 2xx is a success, anything
    else a failure. *)
Definition http_class (z : Z) : classification :=
  if (z =? 401)%Z then Unauthorized
  else if (z =? 204)%Z then NoContent
  else if ((200 <=? z) && (z <=? 299))%Z then Success
  else Failed.

(** What [call] does with the response of an attempt (lines 87 to 104). *)
Definition after_response `{Runtime} (fuel : nat)
    (configuration : Configuration) (retry : nat) (response : value)
  : M value :=
  λ st,
    match classify (heap st) response with
    | None => Threw st
    | Some Unauthorized => after_refresh fuel configuration retry response st
    | Some Failed =>
        (forEach (failedSideEffects configuration)
           (λ fse, invoke fse [ArgValue response]);;
         invoke (failedStrategy configuration) [ArgValue response]) st
    | Some NoContent =>
        (forEach (successSideEffects configuration)
           (λ sse, invoke sse [ArgValue response]);;
         invoke (noContentStrategy configuration) [ArgValue response]) st
    | Some Success =>
        (forEach (successSideEffects configuration)
           (λ sse, invoke sse [ArgValue response]);;
         invoke (successStrategy configuration) [ArgValue response]) st
    end.

(** Line 84: the bearer, if there is one, is written into the headers of the
    descriptor. *)
Definition attach_bearer `{Runtime} (configuration : Configuration)
    (request : HttpRequest) : M unit :=
  σ ← getHeap;
  if truthy (bearer configuration)
  then addHeader request "Authorization"
         (VStr ("Bearer " ++ toString σ (bearer configuration)))
  else mret tt.

(** The builder after the registrations [fs], made one after the other with
    the setter [register]. *)
Definition registered (register : value → Configuration → Configuration)
    (fs : list value) (this : Configuration) : Configuration :=
  foldl (λ builder f, register f builder) this fs.

(** A runtime whose transport always yields [response] and whose caller's
    functions always return [answer]. *)
Definition constant (response answer : value) : Runtime :=
  {| objectToString := λ _ _, "[object Object]";
     coercedGe := λ _ _ _, false;
     axios := λ _ _ _, response;
     userFunction := λ _ _ _ _, answer |}.

(** The example objects followed by three error objects as the interceptor
    hands them over: one whose nested response is the 401 (object 0), one
    whose nested response is the 204 (object 2), and one with neither a
    status nor a response. *)
Definition example_errors : store :=
  (example_objects
   ++ [ {[ "response" := VObj 0 ]};
        {[ "response" := VObj 2 ]};
        {[ "message" := VStr "Network Error" ]} ])%list.

Definition example_error_state : state :=
  {| heap := example_errors; trace := [] |}.

Definition example_error_dispatched : state :=
  {| heap := example_errors; trace := [Requested example_options] |}.

(** A POST of a payload with query parameters, the descriptor it leads to
    and the options its dispatch hands to [axios]. *)
Definition example_post_builder : Configuration :=
  asPost (withParams (VObj 1) (withBody (VStr "payload")
    (withUrl (VStr "https://api.test/x") (HttpBuilder_fields (VObj 4))))).

Definition example_post_request : HttpRequest :=
  {| Url := VStr "https://api.test/x"; Data := VStr "payload";
     Headers := VObj 4; Params := VObj 1; ResponseType := VNull |}.

Definition example_post_options : Axios.config :=
  {| Axios.url := VStr "https://api.test/x"; Axios.data := VStr "payload";
     Axios.params := VUndefined; Axios.responseType := VUndefined;
     Axios.headers := VObj 4; Axios.method := "POST" |}.

(** * Properties *)

Section Properties.
Context `{Runtime}.

(** ** The monad *)

Lemma logged_logged st es es' :
  logged (logged st es) es' = logged st (es ++ es')%list.
Proof. unfold logged; cbn. by rewrite <- app_assoc. Qed.

Lemma logged_nil st : logged st [] = st.
Proof. destruct st; unfold logged; cbn. by rewrite app_nil_r. Qed.

Lemma bind_Returned {A B} (m : M A) (k : A → M B) st a st' :
  m st = Returned a st' → (m ≫= k) st = k a st'.
Proof. unfold mbind, M_bind. by intros ->. Qed.

Lemma invoke_VFun f args st :
  invoke (VFun f) args st = fn_result f args (logged st [Called f args]).
Proof. reflexivity. Qed.

Lemma invoke_returns f args st v :
  fn_value (trace st ++ [Called f args]) (heap st) f args = Some v →
  invoke (VFun f) args st = Returned v (logged st [Called f args]).
Proof. intros Hv. rewrite invoke_VFun. unfold fn_result; cbn. by rewrite Hv. Qed.

Lemma get_is_Some σ v k : v ≠ VUndefined → v ≠ VNull → is_Some (get σ v k).
Proof. destruct v; cbn; intros; eauto; congruence. Qed.

Lemma fn_value_applicable tr σ f args :
  applicable args → is_Some (fn_value tr σ f args).
Proof.
  destruct f; cbn; eauto.
  destruct args as [|[v|r] args]; cbn; [tauto| |eauto].
  intros [? ?]. by apply get_is_Some.
Qed.

Lemma fn_value_not_success_default tr σ f args :
  f ≠ successStrategy_default → is_Some (fn_value tr σ f args).
Proof. destruct f; cbn; eauto. congruence. Qed.

(** Side effects that all return are all called, in order. *)
Lemma forEach_Called_each fs args st :
  (∀ f tr, f ∈ fs → is_Some (fn_value tr (heap st) f args)) →
  forEach (VFun <$> fs) (λ v, invoke v args) st
  = Returned tt (logged st (Called_each fs args)).
Proof.
  revert st. induction fs as [|f fs IH]; intros st Hfs.
  - cbn. by rewrite logged_nil.
  - cbn [fmap list_fmap forEach].
    destruct (Hfs f (trace st ++ [Called f args])%list) as [v Hv];
      [by left|].
    erewrite bind_Returned by (by apply invoke_returns).
    rewrite IH by (intros; apply Hfs; by right).
    by rewrite logged_logged.
Qed.

(** ** Classification *)

Lemma falsy_not_401 σ v : truthy v = false → test re_401 σ v = false.
Proof.
  destruct v as [| |[]|[z| | |]|s| |]; try done; cbn.
  - rewrite negb_false_iff. intros ->%Z.eqb_eq. reflexivity.
  - rewrite negb_false_iff. intros ->%String.eqb_eq. reflexivity.
Qed.

Lemma unauthorized_total σ res : is_Some (unauthorized σ res).
Proof.
  unfold unauthorized, status_or_nested.
  destruct (truthy res) eqn:Hres; [|cbn; eauto].
  assert (res ≠ VUndefined ∧ res ≠ VNull) as [? ?] by (by destruct res).
  destruct (get_is_Some σ res "status") as [status ->]; [done..|]. cbn.
  destruct (truthy status); [cbn; eauto|].
  destruct (get_is_Some σ res "response") as [response ->]; [done..|]. cbn.
  destruct (truthy response) eqn:Hr; [|cbn; eauto].
  destruct (get_is_Some σ response "status") as [nested ->];
    [by destruct response..|]. cbn; eauto.
Qed.

Lemma unauthorized_truthy σ res :
  unauthorized σ res = Some true → truthy res = true.
Proof.
  unfold unauthorized. destruct (truthy res) eqn:Hres; [done|]. cbn.
  by rewrite falsy_not_401.
Qed.

Lemma truthy_not_nullish v : truthy v = true → v ≠ VUndefined ∧ v ≠ VNull.
Proof. by destruct v. Qed.

Lemma isAFailed_false_not_nullish σ res :
  isAFailedHttpResponse σ res = Some false → res ≠ VUndefined ∧ res ≠ VNull.
Proof.
  unfold isAFailedHttpResponse. case_decide; [done|].
  destruct res; try done.
Qed.

(** ** One step of [call] *)

Lemma new_HttpRequest_spec configuration st :
  new_HttpRequest (url configuration) (body configuration)
    (headers configuration) (queryParams configuration)
    (responseType configuration) st
  = Returned (request_of configuration (heap st))
      {| heap := heap_built configuration (heap st); trace := trace st |}.
Proof.
  unfold new_HttpRequest, request_of, heap_built.
  destruct (truthy (headers configuration)); destruct st; reflexivity.
Qed.

Lemma call_exhausted fuel configuration retry st :
  ge (heap_built configuration (heap st)) retry (maxRetry configuration)
  = true →
  call (S fuel) configuration retry st
  = (forEach (retryFallbackSideEffects configuration)
       (λ rfse, invoke rfse [ArgRequest (request_of configuration (heap st))]);;
     invoke (retryFallbackStrategy configuration)
       [ArgRequest (request_of configuration (heap st))])
      {| heap := heap_built configuration (heap st); trace := trace st |}.
Proof.
  intros Hge. cbn [call]. unfold mbind at 1, M_bind at 1.
  rewrite new_HttpRequest_spec.
  unfold mbind at 1, M_bind at 1, getHeap at 1. cbn [heap].
  by rewrite Hge.
Qed.

Lemma attempt_unfold configuration st :
  attempt configuration st
  = let request := request_of configuration (heap st) in
    let σ := heap_built configuration (heap st) in
    match (if truthy (bearer configuration)
           then addHeader request "Authorization"
                  (VStr ("Bearer " ++ toString σ (bearer configuration)))
           else mret tt) {| heap := σ; trace := trace st |} with
    | Returned _ st1 =>
        match dispatch (method configuration) request st1 with
        | Returned response st2 => Returned (request, response) st2
        | Threw st2 => Threw st2
        | OutOfFuel => OutOfFuel
        end
    | Threw st1 => Threw st1
    | OutOfFuel => OutOfFuel
    end.
Proof.
  unfold attempt. unfold mbind at 1, M_bind at 1.
  by rewrite new_HttpRequest_spec.
Qed.

(** When the budget is not exhausted, [call] makes one attempt and goes on
    by the class of the response. *)
Lemma call_attempt fuel configuration retry st :
  ge (heap_built configuration (heap st)) retry (maxRetry configuration)
  = false →
  call (S fuel) configuration retry st
  = match attempt configuration st with
    | Returned (request, response) st1 =>
        match classify (heap st1) response with
        | None => Threw st1
        | Some Unauthorized =>
            after_refresh fuel configuration retry response st1
        | Some Failed =>
            (forEach (failedSideEffects configuration)
               (λ fse, invoke fse [ArgValue response]);;
             invoke (failedStrategy configuration) [ArgValue response]) st1
        | Some NoContent =>
            (forEach (successSideEffects configuration)
               (λ sse, invoke sse [ArgValue response]);;
             invoke (noContentStrategy configuration) [ArgValue response]) st1
        | Some Success =>
            (forEach (successSideEffects configuration)
               (λ sse, invoke sse [ArgValue response]);;
             invoke (successStrategy configuration) [ArgValue response]) st1
        end
    | Threw st1 => Threw st1
    | OutOfFuel => OutOfFuel
    end.
Proof.
  intros Hge. rewrite attempt_unfold. cbn [call].
  unfold mbind at 1, M_bind at 1.
  rewrite new_HttpRequest_spec.
  unfold mbind at 1, M_bind at 1, getHeap at 1. cbn [heap].
  rewrite Hge. cbv zeta.
  unfold classify, after_refresh.
  unfold mbind, M_bind, getHeap, mret, M_ret.
  destruct (if truthy (bearer configuration) then _ else _)
    as [[] st1| |]; try reflexivity.
  destruct (dispatch _ _ st1) as [response st2| |]; try reflexivity.
  unfold option_bind.
  destruct (unauthorized (heap st2) response) as [[]|] eqn:Hu;
    cbn [orThrow]; try reflexivity.
  destruct (isAFailedHttpResponse (heap st2) response) as [[]|] eqn:Hf;
    cbn; try reflexivity.
  destruct (noContent (heap st2) response) as [[]|] eqn:Hn;
    cbn; try reflexivity.
  apply isAFailed_false_not_nullish in Hf as [? ?].
  destruct (get_is_Some (heap st2) response "status") as [x Hx]; [done..|].
  unfold noContent in Hn. by rewrite Hx in Hn.
Qed.

(** ** Counting dispatches *)

Lemma requests_app tr tr' : requests (tr ++ tr') = requests tr + requests tr'.
Proof. unfold requests. by rewrite filter_app, length_app. Qed.

Lemma requests_Called_each fs args : requests (Called_each fs args) = 0.
Proof. induction fs as [|f fs IH]; [done|exact IH]. Qed.

Lemma requests_logged_calls st fs args s args' :
  requests (trace (logged st (Called_each fs args ++ [Called s args'])))
  = requests (trace st).
Proof.
  unfold logged; cbn [trace]. rewrite !requests_app, requests_Called_each.
  change (requests [Called s args']) with 0. lia.
Qed.

(** ** The terminal paths *)

(** Side effects and then a strategy, all of which return on [args]. *)
Lemma side_effects_then_strategy sideEffects strategy fs s args st :
  sideEffects = VFun <$> fs →
  strategy = VFun s →
  (∀ f tr σ, f ∈ s :: fs → is_Some (fn_value tr σ f args)) →
  let st' := logged st (Called_each fs args ++ [Called s args]) in
  ∃ v, fn_value (trace st') (heap st') s args = Some v ∧
       (forEach sideEffects (λ f, invoke f args);; invoke strategy args) st
       = Returned v st'.
Proof.
  intros -> -> Hret st'.
  destruct (Hret s (trace st') (heap st')) as [v Hv]; [by left|].
  exists v. split; [done|].
  erewrite bind_Returned
    by (apply forEach_Called_each; intros; apply Hret; by right).
  rewrite (invoke_returns _ _ _ v).
  - by rewrite logged_logged.
  - subst st'. cbn in *. by rewrite <- app_assoc.
Qed.

(** C7. With [maxRetry = 0] no transport dispatch occurs: on entry the engine
    builds a descriptor from the configuration, calls every
    retryFallbackSideEffect on it in registration order, and returns what
    retryFallbackStrategy returns on it. *)
Theorem zero_budget_falls_back_at_once fuel configuration st fs s :
  maxRetry configuration = VNum (Int 0) →
  retryFallbackSideEffects configuration = VFun <$> fs →
  retryFallbackStrategy configuration = VFun s →
  let request := request_of configuration (heap st) in
  let st' :=
    logged {| heap := heap_built configuration (heap st); trace := trace st |}
      (Called_each fs [ArgRequest request] ++ [Called s [ArgRequest request]])
  in
  ∃ v, fn_value (trace st') (heap st') s [ArgRequest request] = Some v
     ∧ call (S fuel) configuration 0 st = Returned v st'
     ∧ requests (trace st') = requests (trace st)
     ∧ Url request = url configuration
     ∧ Data request = body configuration
     ∧ Params request = queryParams configuration
     ∧ ResponseType request = responseType configuration
     ∧ (Headers request = headers configuration
        ∨ Headers request = VObj (length (heap st))
          ∧ heap st' !! length (heap st) = Some ∅).
Proof.
  intros Hmax Hfs Hs request st'.
  destruct (side_effects_then_strategy _ _ fs s [ArgRequest request]
              {| heap := heap_built configuration (heap st);
                 trace := trace st |} Hfs Hs) as [v [Hv Hrun]].
  { intros. by apply fn_value_applicable. }
  exists v. split; [exact Hv|]. split; [|split].
  - rewrite call_exhausted; [exact Hrun|]. by rewrite Hmax.
  - exact (requests_logged_calls _ _ _ _ _).
  - repeat split. subst request st'. unfold request_of, heap_built. cbn.
    destruct (truthy (headers configuration)); [by left|right].
    split; [done|]. by rewrite lookup_app_r, Nat.sub_diag.
Qed.

(** What an attempt that reached the transport leaves behind: the descriptor
    built from the configuration and exactly one dispatch. *)
Lemma attempt_Returned configuration st request response st1 :
  attempt configuration st = Returned (request, response) st1 →
  request = request_of configuration (heap st)
  ∧ ∃ client,
      HttpClient (heap st1) (method configuration) = Some client
      ∧ trace st1 = (trace st ++ [Requested (client request)])%list
      ∧ response = axios (trace st1) (heap st1) (client request).
Proof.
  rewrite attempt_unfold. cbv zeta.
  destruct (if truthy (bearer configuration) then _ else _)
    as [[] st0| |] eqn:Hauth; [|done..].
  assert (trace st0 = trace st) as Htr.
  { destruct (truthy (bearer configuration)); [|by inversion Hauth].
    unfold addHeader, assign in Hauth.
    destruct (Headers _); inversion Hauth; done. }
  unfold dispatch, mbind, M_bind, getHeap.
  destruct (HttpClient (heap st0) (method configuration)) as [client|] eqn:Hc;
    cbn; [|done].
  inversion 1; subst. cbn. rewrite Htr. eauto.
Qed.

Lemma attempt_requests configuration st request response st1 :
  attempt configuration st = Returned (request, response) st1 →
  requests (trace st1) = S (requests (trace st)).
Proof.
  intros (_ & client & _ & -> & _)%attempt_Returned.
  rewrite requests_app. change (requests [Requested _]) with 1. lia.
Qed.

(** C8. A response that is neither unauthorized nor failed: every
    successSideEffect is called on it in registration order, then exactly one
    strategy, noContentStrategy if the response's status matches 204 and
    successStrategy otherwise, whose result is the result of the run. *)
Theorem success_side_effects_then_one_strategy
    fuel configuration retry st request response st1 fs nc s :
  ge (heap_built configuration (heap st)) retry (maxRetry configuration)
  = false →
  attempt configuration st = Returned (request, response) st1 →
  unauthorized (heap st1) response = Some false →
  isAFailedHttpResponse (heap st1) response = Some false →
  successSideEffects configuration = VFun <$> fs →
  noContentStrategy configuration = VFun nc →
  successStrategy configuration = VFun s →
  ∃ status v,
    get (heap st1) response "status" = Some status ∧
    let chosen := if test re_204 (heap st1) status then nc else s in
    let st' := logged st1 (Called_each fs [ArgValue response]
                           ++ [Called chosen [ArgValue response]]) in
    fn_value (trace st') (heap st') chosen [ArgValue response] = Some v
    ∧ call (S fuel) configuration retry st = Returned v st'
    ∧ requests (trace st') = requests (trace st1).
Proof.
  intros Hge Hattempt Hu Hf Hfs Hnc Hs.
  destruct (isAFailed_false_not_nullish _ _ Hf) as [Hundef Hnull].
  destruct (get_is_Some (heap st1) response "status") as [status Hstatus];
    [done..|].
  exists status.
  rewrite call_attempt, Hattempt by done.
  unfold classify, noContent. rewrite Hu, Hf, Hstatus. cbn.
  destruct (test re_204 (heap st1) status).
  - destruct (side_effects_then_strategy _ _ fs nc [ArgValue response] st1
                Hfs Hnc) as [v [Hv Hrun]].
    { intros. by apply fn_value_applicable. }
    exists v. split; [done|]. split; [exact Hv|]. split; [exact Hrun|].
    exact (requests_logged_calls _ _ _ _ _).
  - destruct (side_effects_then_strategy _ _ fs s [ArgValue response] st1
                Hfs Hs) as [v [Hv Hrun]].
    { intros. by apply fn_value_applicable. }
    exists v. split; [done|]. split; [exact Hv|]. split; [exact Hrun|].
    exact (requests_logged_calls _ _ _ _ _).
Qed.

(** C6. An absent ([undefined]) response is classified Failed, by tests that
    return without reading any property of it (reading one would throw);
    every failedSideEffect is then called on [undefined] in registration
    order and the run returns what failedStrategy returns on [undefined]. *)
Theorem absent_response_is_failed
    fuel configuration retry st request st1 fs s :
  ge (heap_built configuration (heap st)) retry (maxRetry configuration)
  = false →
  attempt configuration st = Returned (request, VUndefined) st1 →
  failedSideEffects configuration = VFun <$> fs →
  failedStrategy configuration = VFun s →
  (∀ f, f ∈ s :: fs → f ≠ successStrategy_default) →
  let st' := logged st1 (Called_each fs [ArgValue VUndefined]
                         ++ [Called s [ArgValue VUndefined]]) in
  (∀ σ k, get σ VUndefined k = None)
  ∧ (∀ σ, unauthorized σ VUndefined = Some false
          ∧ isAFailedHttpResponse σ VUndefined = Some true
          ∧ classify σ VUndefined = Some Failed)
  ∧ ∃ v, fn_value (trace st') (heap st') s [ArgValue VUndefined] = Some v
       ∧ call (S fuel) configuration retry st = Returned v st'.
Proof.
  intros Hge Hattempt Hfs Hs Hnot st'.
  split; [done|]. split; [done|].
  rewrite call_attempt, Hattempt by done.
  change (classify (heap st1) VUndefined) with (Some Failed). cbv iota.
  apply (side_effects_then_strategy _ _ fs s [ArgValue VUndefined] st1 Hfs Hs).
  intros. by apply fn_value_not_success_default, Hnot.
Qed.

(** C1, amended.  On a response classified Unauthorized the engine calls
    refreshTokenStrategy().  If that returns a truthy value (true), the run
    goes on as [call] with the attempt counter incremented by one, exactly
    once, and no unauthorized handler has been called; whether a dispatch
    follows is for the re-entered call to decide: if the incremented counter
    has reached the budget it ends through the retry fallback with no further
    dispatch, and otherwise it makes a new attempt on a descriptor built anew
    from the configuration, which is one more dispatch.  If the refresh
    returns a falsy value (false), every unauthorizedSideEffect is called on
    the response in registration order, unauthorizedStrategy is called on the
    response, its result is the result of the run and there is no further
    dispatch. *)
Theorem unauthorized_refresh_or_terminate
    fuel configuration retry st request response st1 r refreshed :
  ge (heap_built configuration (heap st)) retry (maxRetry configuration)
  = false →
  attempt configuration st = Returned (request, response) st1 →
  unauthorized (heap st1) response = Some true →
  refreshTokenStrategy configuration = VFun r →
  let st2 := logged st1 [Called r []] in
  fn_value (trace st2) (heap st2) r [] = Some refreshed →
  (truthy refreshed = true →
     call (S fuel) configuration retry st = call fuel configuration (S retry) st2
     ∧ (ge (heap_built configuration (heap st2)) (S retry)
          (maxRetry configuration) = true →
        ∀ fs s,
          retryFallbackSideEffects configuration = VFun <$> fs →
          retryFallbackStrategy configuration = VFun s →
          let request' := request_of configuration (heap st2) in
          let st' :=
            logged {| heap := heap_built configuration (heap st2);
                      trace := trace st2 |}
              (Called_each fs [ArgRequest request']
               ++ [Called s [ArgRequest request']]) in
          ∃ v, call (S (S fuel)) configuration retry st = Returned v st'
             ∧ requests (trace st') = requests (trace st1))
     ∧ (ge (heap_built configuration (heap st2)) (S retry)
          (maxRetry configuration) = false →
        ∀ request' response' st3,
          attempt configuration st2 = Returned (request', response') st3 →
          request' = request_of configuration (heap st2)
          ∧ requests (trace st3) = S (requests (trace st1))
          ∧ call (S (S fuel)) configuration retry st
            = after_response fuel configuration (S retry) response' st3))
  ∧ (truthy refreshed = false →
     ∀ fs s,
       unauthorizedSideEffects configuration = VFun <$> fs →
       unauthorizedStrategy configuration = VFun s →
       let st' := logged st2 (Called_each fs [ArgValue response]
                              ++ [Called s [ArgValue response]]) in
       ∃ v, fn_value (trace st') (heap st') s [ArgValue response] = Some v
          ∧ call (S fuel) configuration retry st = Returned v st'
          ∧ requests (trace st') = requests (trace st1)).
Proof.
  intros Hge Hattempt Hu Hr st2 Hrefreshed.
  assert (∀ fuel, call (S fuel) configuration retry st
                  = after_refresh fuel configuration retry response st1)
    as Hcall.
  { intros fuel'. rewrite call_attempt, Hattempt by done.
    unfold classify. by rewrite Hu. }
  assert (invoke (refreshTokenStrategy configuration) [] st1
          = Returned refreshed st2) as Hinvoke.
  { rewrite Hr. by apply invoke_returns. }
  assert (requests (trace st2) = requests (trace st1)) as Hst2.
  { subst st2. unfold logged; cbn [trace]. rewrite requests_app.
    change (requests [Called r []]) with 0. lia. }
  split; intros Htruthy.
  - assert (∀ fuel, call (S fuel) configuration retry st
                    = call fuel configuration (S retry) st2) as Hstep.
    { intros fuel'. rewrite Hcall. unfold after_refresh.
      erewrite bind_Returned by exact Hinvoke. by rewrite Htruthy. }
    split; [apply Hstep|]. split.
    + intros Hexhausted fs s Hfs Hs request' st'.
      destruct (side_effects_then_strategy _ _ fs s [ArgRequest request']
                  {| heap := heap_built configuration (heap st2);
                     trace := trace st2 |} Hfs Hs) as [v [Hv Hrun]].
      { intros. by apply fn_value_applicable. }
      exists v. split.
      * rewrite Hstep, call_exhausted by done. exact Hrun.
      * subst st'. rewrite requests_logged_calls. exact Hst2.
    + intros Hleft request' response' st3 Hattempt'.
      split; [by apply attempt_Returned in Hattempt' as [? _]|].
      split; [by rewrite (attempt_requests _ _ _ _ _ Hattempt'), Hst2|].
      rewrite Hstep, call_attempt by done. by rewrite Hattempt'.
  - intros fs s Hfs Hs st'.
    destruct (side_effects_then_strategy _ _ fs s [ArgValue response] st2
                Hfs Hs) as [v [Hv Hrun]].
    { intros. apply fn_value_applicable.
      by apply truthy_not_nullish, (unauthorized_truthy (heap st1)). }
    exists v. split; [exact Hv|]. split.
    + rewrite Hcall. unfold after_refresh.
      erewrite bind_Returned by exact Hinvoke. by rewrite Htruthy.
    + subst st'. rewrite requests_logged_calls. exact Hst2.
Qed.

(** C5, amended.  The status the tests look at is the direct status when
    that is truthy and the nested response's status otherwise.  Whenever
    that status matches 401 the response is classified Unauthorized and the
    engine goes to the refresh attempt, whatever else the response holds. *)
Theorem tested_status_401_is_unauthorized
    fuel configuration retry st request response st1 status :
  ge (heap_built configuration (heap st)) retry (maxRetry configuration)
  = false →
  attempt configuration st = Returned (request, response) st1 →
  (get (heap st1) response "status" = Some status ∧ truthy status = true
   ∨ ∃ direct nested,
       get (heap st1) response "status" = Some direct
       ∧ truthy direct = false
       ∧ get (heap st1) response "response" = Some nested
       ∧ truthy nested = true
       ∧ get (heap st1) nested "status" = Some status) →
  test re_401 (heap st1) status = true →
  unauthorized (heap st1) response = Some true
  ∧ classify (heap st1) response = Some Unauthorized
  ∧ call (S fuel) configuration retry st
    = after_refresh fuel configuration retry response st1.
Proof.
  intros Hge Hattempt Hstatus H401.
  assert (unauthorized (heap st1) response = Some true) as Hu.
  { unfold unauthorized, status_or_nested.
    assert (truthy response = true) as ->.
    { destruct Hstatus as [[Hs Ht]|(d & n & Hd & _ & Hn & Ht & _)];
        destruct response; cbn in *; simplify_eq; done. }
    destruct Hstatus as [[Hs Ht]|(d & n & Hd & Hdf & Hn & Hnt & Hns)].
    - rewrite Hs. cbn. rewrite Ht. cbn. by rewrite H401.
    - rewrite Hd. cbn. rewrite Hdf, Hn. cbn. rewrite Hnt, Hns. cbn.
      by rewrite H401. }
  split; [exact Hu|].
  assert (classify (heap st1) response = Some Unauthorized) as Hc.
  { unfold classify. by rewrite Hu. }
  split; [exact Hc|].
  by rewrite call_attempt, Hattempt, Hc.
Qed.

(** C10, amended.  A call that finds the budget exhausted attaches no header
    of its own: the descriptor it hands to the retryFallbackSideEffects and
    to retryFallbackStrategy has the configuration's own headers object for
    its headers (a new empty object when the configuration has none), so its
    Authorization header is whatever that object holds on entry. *)
Theorem fallback_descriptor_headers fuel configuration retry st fs s :
  ge (heap_built configuration (heap st)) retry (maxRetry configuration)
  = true →
  retryFallbackSideEffects configuration = VFun <$> fs →
  retryFallbackStrategy configuration = VFun s →
  let request := request_of configuration (heap st) in
  let st' :=
    logged {| heap := heap_built configuration (heap st); trace := trace st |}
      (Called_each fs [ArgRequest request] ++ [Called s [ArgRequest request]])
  in
  ∃ v, call (S fuel) configuration retry st = Returned v st'
     ∧ get (heap st') (Headers request) "Authorization"
       = if truthy (headers configuration)
         then get (heap st) (headers configuration) "Authorization"
         else Some VUndefined.
Proof.
  intros Hge Hfs Hs request st'.
  destruct (side_effects_then_strategy _ _ fs s [ArgRequest request]
              {| heap := heap_built configuration (heap st);
                 trace := trace st |} Hfs Hs) as [v [Hv Hrun]].
  { intros. by apply fn_value_applicable. }
  exists v. split.
  - by rewrite call_exhausted.
  - subst request st'. unfold request_of, heap_built, logged.
    cbn [heap Headers].
    destruct (truthy (headers configuration)); [done|].
    unfold get. by rewrite lookup_app_r, Nat.sub_diag.
Qed.

(** ** Termination and the store *)

Lemma still_refl {A} (a : A) st : still (Returned a st) st.
Proof. by exists st. Qed.

Lemma still_Threw {A} st : still (@Threw A st) st.
Proof. by exists st. Qed.

Lemma bind_still {A B} (m : M A) (k : A → M B) st :
  still (m st) st →
  (∀ a st1, m st = Returned a st1 → still (k a st1) st1) →
  still ((m ≫= k) st) st.
Proof.
  intros (st1 & Hfin & Hheap & Hreq) Hk. unfold mbind, M_bind.
  destruct (m st) as [a st1'| st1'|] eqn:Hm; cbn in Hfin; simplify_eq.
  - destruct (Hk a st1 eq_refl) as (st2 & ? & ? & ?).
    exists st2. repeat split; [done|congruence..].
  - by exists st1.
Qed.

Lemma invoke_still v args st : still (invoke v args st) st.
Proof.
  destruct v; try apply still_Threw.
  rewrite invoke_VFun. unfold fn_result.
  set (st' := logged st [Called f args]).
  assert (heap st' = heap st ∧ requests (trace st') = requests (trace st))
    as [? ?].
  { subst st'. unfold logged; cbn [heap trace]. rewrite requests_app.
    change (requests [Called f args]) with 0. split; [done|lia]. }
  destruct (fn_value _ _ f args); by exists st'.
Qed.

Lemma forEach_still l args st :
  still (forEach l (λ f, invoke f args) st) st.
Proof.
  revert st. induction l as [|v l IH]; intros st; [apply still_refl|].
  cbn [forEach]. apply bind_still; [apply invoke_still|]. intros; apply IH.
Qed.

Lemma handlers_still sideEffects strategy args st :
  still ((forEach sideEffects (λ f, invoke f args);; invoke strategy args) st)
        st.
Proof.
  apply bind_still; [apply forEach_still|]. intros; apply invoke_still.
Qed.

Lemma unchanged_refl configuration σ :
  unchanged_but_authorization configuration σ σ.
Proof. by split. Qed.

Lemma unchanged_trans configuration σ1 σ2 σ3 :
  unchanged_but_authorization configuration σ1 σ2 →
  unchanged_but_authorization configuration σ2 σ3 →
  unchanged_but_authorization configuration σ1 σ3.
Proof.
  intros [Hlen12 H12] [Hlen23 H23]. split; [lia|].
  intros l k Hl Hk. rewrite H23, H12; [done..|lia|done].
Qed.

Lemma heap_built_unchanged configuration σ :
  unchanged_but_authorization configuration σ (heap_built configuration σ).
Proof.
  unfold heap_built. destruct (truthy (headers configuration));
    [apply unchanged_refl|].
  split; [rewrite length_app; lia|].
  intros l k Hl _. by rewrite lookup_app_l.
Qed.

(** Writing a header of the descriptor writes the configuration's headers
    object, or the new object the descriptor was given. *)
Lemma addHeader_unchanged configuration σ v tr st1 :
  final_state
    (addHeader (request_of configuration σ) "Authorization" v
       {| heap := heap_built configuration σ; trace := tr |}) = Some st1 →
  trace st1 = tr ∧ unchanged_but_authorization configuration σ (heap st1).
Proof.
  unfold addHeader, assign, request_of, heap_built. cbn [Headers].
  destruct (truthy (headers configuration)) eqn:Htruthy.
  - destruct (headers configuration) as [| | | | | |l'] eqn:Hh;
      cbn; intros ?; simplify_eq; cbn;
      try (split; [done|apply unchanged_refl]).
    split; [done|]. split; [by rewrite length_alter|].
    intros l k Hl Hk.
    destruct (decide (l' = l)) as [->|Hne];
      [|by rewrite list_lookup_alter_ne].
    rewrite list_lookup_alter_eq.
    destruct (σ !! l) as [o|]; [|done]. cbn.
    rewrite lookup_insert_ne; [done|]. intros <-. by apply Hk.
  - cbn. intros ?; simplify_eq; cbn. split; [done|].
    split; [rewrite length_alter, length_app; lia|].
    intros l k Hl Hk.
    rewrite list_lookup_alter_ne by lia. by rewrite lookup_app_l.
Qed.

Lemma dispatch_final method request st :
  ∃ st1,
    final_state
      (match dispatch method request st with
       | Returned response st2 => Returned (request, response) st2
       | Threw st2 => Threw st2
       | OutOfFuel => OutOfFuel
       end) = Some st1
    ∧ heap st1 = heap st
    ∧ requests (trace st1) ≤ S (requests (trace st)).
Proof.
  unfold dispatch, mbind, M_bind, getHeap.
  destruct (HttpClient (heap st) method) as [client|]; cbn.
  - eexists. split; [reflexivity|]. cbn. split; [done|].
    rewrite requests_app. change (requests [Requested _]) with 1. lia.
  - exists st. split; [done|]. split; [done|lia].
Qed.

(** An attempt terminates, with at most one dispatch, having written at most
    the Authorization header. *)
Lemma attempt_final configuration st :
  ∃ st1, final_state (attempt configuration st) = Some st1
       ∧ unchanged_but_authorization configuration (heap st) (heap st1)
       ∧ requests (trace st1) ≤ S (requests (trace st)).
Proof.
  rewrite attempt_unfold. cbv zeta.
  destruct (truthy (bearer configuration)).
  - match goal with
    | |- context [addHeader ?r ?k ?v ?st0] =>
        assert (is_Some (final_state (addHeader r k v st0))) as [st0' Hst0];
        [unfold addHeader, assign; destruct (Headers r); cbn; eauto|];
        pose proof Hst0 as [Htr Hun]%addHeader_unchanged;
        destruct (addHeader r k v st0) as [[] st0''|st0''|];
        cbn in Hst0; simplify_eq
    end.
    + destruct (dispatch_final (method configuration)
                  (request_of configuration (heap st)) st0')
        as (st1 & Hfin & Hheap & Hreq).
      exists st1. split; [done|]. rewrite Hheap. split; [done|].
      rewrite Htr in Hreq. exact Hreq.
    + exists st0'. split; [done|]. split; [done|]. rewrite Htr. lia.
  - cbn [mret M_ret].
    match goal with
    | |- context [dispatch ?m ?r ?st0] =>
        destruct (dispatch_final m r st0) as (st1 & Hfin & Hheap & Hreq)
    end.
    exists st1. split; [done|]. rewrite Hheap. cbn.
    split; [apply heap_built_unchanged|exact Hreq].
Qed.

(** With a budget of [m], [k] of which are left, [call] terminates on more
    than [k] units of fuel after at most [k] dispatches. *)
Lemma call_final_bounded configuration m spare :
  maxRetry configuration = VNum (Int (Z.of_nat m)) →
  ∀ k retry st,
    retry + k = m →
    ∃ st', final_state (call (S (k + spare)) configuration retry st)
           = Some st'
         ∧ requests (trace st') ≤ requests (trace st) + k.
Proof.
  intros Hmax. induction k as [|k IH]; intros retry st Hk.
  - rewrite call_exhausted.
    2:{ rewrite Hmax. cbn. apply Z.leb_le. lia. }
    destruct (handlers_still (retryFallbackSideEffects configuration)
                (retryFallbackStrategy configuration)
                [ArgRequest (request_of configuration (heap st))]
                {| heap := heap_built configuration (heap st);
                   trace := trace st |}) as (st' & Hfin & _ & Hreq).
    exists st'. split; [done|]. cbn in Hreq. lia.
  - change (S k + spare) with (S (k + spare)). rewrite call_attempt.
    2:{ rewrite Hmax. cbn. apply Z.leb_gt. lia. }
    destruct (attempt_final configuration st) as (st1 & Hfin & _ & Hreq).
    destruct (attempt configuration st) as [[request response] st1'|st1'|];
      cbn in Hfin; simplify_eq; [|exists st1; split; [done|lia]].
    destruct (classify (heap st1) response) as [[]|];
      [|match goal with
        | |- context [(forEach ?l _;; invoke ?v ?args) st1] =>
            destruct (handlers_still l v args st1) as (st' & ? & _ & ?);
            exists st'; split; [done|lia]
        end..|exists st1; split; [done|lia]].
    unfold after_refresh, mbind at 1, M_bind at 1.
    destruct (invoke_still (refreshTokenStrategy configuration) [] st1)
      as (st2 & Hfin2 & _ & Hreq2).
    destruct (invoke (refreshTokenStrategy configuration) [] st1)
      as [refreshed st2'|st2'|]; cbn in Hfin2; simplify_eq;
      [|exists st2; split; [done|lia]].
    destruct (truthy refreshed).
    + destruct (IH (S retry) st2) as (st' & ? & ?); [lia|].
      exists st'. split; [done|lia].
    + match goal with
      | |- context [(forEach ?l _;; invoke ?v ?args) st2] =>
          destruct (handlers_still l v args st2) as (st' & ? & _ & ?)
      end.
      exists st'. split; [done|lia].
Qed.

(** A run changes no property of the objects it found other than
    Authorization of the configuration's headers object. *)
Lemma call_unchanged configuration fuel :
  ∀ retry st st',
    final_state (call fuel configuration retry st) = Some st' →
    unchanged_but_authorization configuration (heap st) (heap st').
Proof.
  induction fuel as [|fuel IH]; intros retry st st' Hfin; [done|].
  destruct (ge (heap_built configuration (heap st)) retry
              (maxRetry configuration)) eqn:Hge.
  - rewrite call_exhausted in Hfin by done.
    match type of Hfin with
    | context [(forEach ?l _;; invoke ?v ?args) ?st0] =>
        destruct (handlers_still l v args st0) as (st'' & Hfin' & Hheap & _)
    end.
    rewrite Hfin' in Hfin. simplify_eq. cbn in Hheap. rewrite Hheap.
    apply heap_built_unchanged.
  - rewrite call_attempt in Hfin by done.
    destruct (attempt_final configuration st) as (st1 & Hfin1 & Hun & _).
    destruct (attempt configuration st) as [[request response] st1'|st1'|];
      cbn in Hfin1; simplify_eq; [|by cbn in Hfin; simplify_eq].
    destruct (classify (heap st1) response) as [[]|];
      [|match type of Hfin with
        | context [(forEach ?l _;; invoke ?v ?args) st1] =>
            destruct (handlers_still l v args st1)
              as (st'' & Hfin' & Hheap & _);
            rewrite Hfin' in Hfin; simplify_eq; by rewrite Hheap
        end..|by cbn in Hfin; simplify_eq].
    unfold after_refresh, mbind at 1, M_bind at 1 in Hfin.
    destruct (invoke_still (refreshTokenStrategy configuration) [] st1)
      as (st2 & Hfin2 & Hheap2 & _).
    destruct (invoke (refreshTokenStrategy configuration) [] st1)
      as [refreshed st2'|st2'|]; cbn in Hfin2; simplify_eq;
      [|cbn in Hfin; simplify_eq; by rewrite Hheap2].
    destruct (truthy refreshed).
    + apply IH in Hfin. rewrite Hheap2 in Hfin.
      by eapply unchanged_trans.
    + match type of Hfin with
      | context [(forEach ?l _;; invoke ?v ?args) st2] =>
          destruct (handlers_still l v args st2)
            as (st'' & Hfin' & Hheap & _)
      end.
      rewrite Hfin' in Hfin. simplify_eq. by rewrite Hheap, Hheap2.
Qed.


(** C3, amended.  Every call builds a new descriptor whose url, body, query
    parameters and response type are the configuration's, and whose headers
    are the configuration's own headers object, not a copy (a new empty
    object only when the configuration has none).  Setting the Authorization
    header on the descriptor therefore writes that shared object; it is the
    only write: a run changes no property of any object it found other than
    [Authorization] of the configuration's headers object. *)
Theorem descriptor_shares_configuration_headers configuration :
  (∀ st,
     new_HttpRequest (url configuration) (body configuration)
       (headers configuration) (queryParams configuration)
       (responseType configuration) st
     = Returned
         {| Url := url configuration; Data := body configuration;
            Headers := if truthy (headers configuration)
                       then headers configuration
                       else VObj (length (heap st));
            Params := queryParams configuration;
            ResponseType := responseType configuration |}
         {| heap := if truthy (headers configuration) then heap st
                    else (heap st ++ [∅])%list;
            trace := trace st |})
  ∧ (∀ l v st,
       headers configuration = VObj l →
       addHeader (request_of configuration (heap st)) "Authorization" v st
       = Returned tt {| heap := alter (insert "Authorization" v) l (heap st);
                        trace := trace st |})
  ∧ (∀ fuel retry st st',
       final_state (call fuel configuration retry st) = Some st' →
       length (heap st) ≤ length (heap st')
       ∧ ∀ (l : nat) (k : string),
           l < length (heap st) →
           (headers configuration = VObj l → k ≠ "Authorization") →
           (heap st' !! l ≫= lookup k : option value)
           = heap st !! l ≫= lookup k).
Proof.
  split; [|split].
  - intros st. apply new_HttpRequest_spec.
  - intros l v st Hl. unfold addHeader, request_of. cbn [Headers].
    by rewrite Hl.
  - intros fuel retry st st' Hfin.
    exact (call_unchanged configuration fuel retry st st' Hfin).
Qed.

(** ** The builder and the validator *)

Lemma HttpMethods_at_values :
  HttpMethods_at "GET" = VStr "Get" ∧ HttpMethods_at "POST" = VStr "Post"
  ∧ HttpMethods_at "PUT" = VStr "Put"
  ∧ HttpMethods_at "DELETE" = VStr "Delete".
Proof. by vm_compute. Qed.

Lemma methodInvalid_HttpMethods name :
  name ∈ ["GET"; "POST"; "PUT"; "DELETE"] →
  methodInvalid (HttpMethods_at name) = false.
Proof.
  rewrite !elem_of_cons, elem_of_nil.
  intros [->|[->|[->|[->|[]]]]]; by vm_compute.
Qed.

(** The configuration [send] assembles is the builder's fields. *)
Lemma send_unfold fuel this :
  send fuel this
  = let '(valid, warnings) := validConfiguration this in
    console_warn warnings;;
    if valid then call fuel this 0 else mret VUndefined.
Proof. by destruct this. Qed.

(** A run whose refresh strategy is the builder's default makes one
    attempt. *)
Lemma call_once_without_refresh fuel configuration st request response st1 :
  ge (heap_built configuration (heap st)) 0 (maxRetry configuration) = false →
  refreshTokenStrategy configuration = VFun refreshTokenStrategy_default →
  attempt configuration st = Returned (request, response) st1 →
  ∃ st', final_state (call (S fuel) configuration 0 st) = Some st'
       ∧ requests (trace st') = requests (trace st1).
Proof.
  intros Hge Hrefresh Hattempt.
  rewrite call_attempt, Hattempt by done.
  destruct (classify (heap st1) response) as [[]|];
    [|match goal with
      | |- context [(forEach ?l _;; invoke ?v ?args) st1] =>
          destruct (handlers_still l v args st1) as (st' & ? & _ & ?);
          by exists st'
      end..|by exists st1].
  unfold after_refresh. rewrite Hrefresh.
  erewrite bind_Returned by (by apply invoke_returns).
  cbn [truthy].
  match goal with
  | |- context [(forEach ?l _;; invoke ?v ?args) ?st2] =>
      destruct (handlers_still l v args st2) as (st' & ? & _ & Hreq)
  end.
  exists st'. split; [done|]. rewrite Hreq. unfold logged; cbn [trace].
  rewrite requests_app. change (requests [Called _ _]) with 0. lia.
Qed.

(** C9. A builder on which only a method and a non-empty url have been set
    passes validation and its [send] dispatches: the default [queryParams],
    [null], is an object for [typeof], like the default empty headers; the
    default [maxRetry] is the number 2; the default strategies are functions
    and the default side-effect sequences are empty. *)
Theorem default_builder_passes_validation fuel st this st0 asMethod u :
  new_HttpBuilder st = Returned this st0 →
  asMethod ∈ [asGet; asPost; asPut; asDelete] →
  u ≠ "" →
  let builder := asMethod (withUrl (VStr u) this) in
  validConfiguration builder = (true, [])
  ∧ queryParams builder = VNull
  ∧ typeof (queryParams builder) = "object"
  ∧ typeof (headers builder) = "object"
  ∧ maxRetry builder = VNum (Int 2)
  ∧ send (S fuel) builder st0 = call (S fuel) builder 0 st0
  ∧ (∃ request response st1 options,
       attempt builder st0 = Returned (request, response) st1
       ∧ trace st1 = (trace st0 ++ [Requested options])%list)
  ∧ ∃ st', final_state (send (S fuel) builder st0) = Some st'
         ∧ requests (trace st') = S (requests (trace st0)).
Proof.
  intros Hnew Hin Hu builder.
  unfold new_HttpBuilder, mbind, M_bind, alloc, mret, M_ret in Hnew.
  simplify_eq.
  assert (truthy (VStr u) = true) as Htruthy.
  { cbn. apply negb_true_iff. by apply String.eqb_neq. }
  destruct HttpMethods_at_values as (HGet & HPost & HPut & HDelete).
  assert (validConfiguration builder = (true, [])) as Hvalid.
  { subst builder. rewrite !elem_of_cons, elem_of_nil in Hin.
    destruct Hin as [->|[->|[->|[->|[]]]]];
      unfold validConfiguration; cbn [method url headers queryParams maxRetry
        asGet asPost asPut asDelete withUrl HttpBuilder_fields];
      rewrite methodInvalid_HttpMethods, Htruthy by set_solver;
      reflexivity. }
  assert (send (S fuel) builder {| heap := (heap st ++ [∅])%list;
                                   trace := trace st |}
          = call (S fuel) builder 0 {| heap := (heap st ++ [∅])%list;
                                       trace := trace st |}) as Hsend.
  { by rewrite send_unfold, Hvalid. }
  assert (∃ request response st1 options,
            attempt builder {| heap := (heap st ++ [∅])%list;
                               trace := trace st |}
            = Returned (request, response) st1
            ∧ trace st1 = (trace st ++ [Requested options])%list)
    as (request & response & st1 & options & Hattempt & Htrace).
  { subst builder. rewrite !elem_of_cons, elem_of_nil in Hin.
    destruct Hin as [->|[->|[->|[->|[]]]]];
      rewrite attempt_unfold;
      cbn [method url headers queryParams maxRetry bearer
        asGet asPost asPut asDelete withUrl HttpBuilder_fields truthy];
      cbv zeta; cbn [mret M_ret];
      unfold dispatch, mbind, M_bind, getHeap;
      rewrite ?HGet, ?HPost, ?HPut, ?HDelete; cbn;
      repeat eexists. }
  assert (∀ P : Configuration → Prop,
            P (asGet (withUrl (VStr u)
                 (HttpBuilder_fields (VObj (length (heap st)))))) →
            P (asPost (withUrl (VStr u)
                 (HttpBuilder_fields (VObj (length (heap st)))))) →
            P (asPut (withUrl (VStr u)
                 (HttpBuilder_fields (VObj (length (heap st)))))) →
            P (asDelete (withUrl (VStr u)
                 (HttpBuilder_fields (VObj (length (heap st)))))) →
            P builder) as Hcases.
  { intros P ? ? ? ?. subst builder.
    rewrite !elem_of_cons, elem_of_nil in Hin.
    by destruct Hin as [->|[->|[->|[->|[]]]]]. }
  split; [exact Hvalid|].
  split; [by apply (Hcases (λ b, queryParams b = VNull))|].
  split; [by apply (Hcases (λ b, typeof (queryParams b) = "object"))|].
  split; [by apply (Hcases (λ b, typeof (headers b) = "object"))|].
  split; [by apply (Hcases (λ b, maxRetry b = VNum (Int 2)))|].
  split; [exact Hsend|].
  split; [by exists request, response, st1, options|].
  rewrite Hsend.
  destruct (call_once_without_refresh fuel builder _ _ _ _
              ltac:(by apply (Hcases (λ b, ge _ 0 (maxRetry b) = false)))
              ltac:(by apply (Hcases (λ b, refreshTokenStrategy b = _)))
              Hattempt) as (st' & Hfin & Hreq).
  exists st'. split; [done|]. rewrite Hreq, Htrace, requests_app.
  change (requests [Requested options]) with 1. cbn [trace]. lia.
Qed.

(** The validator does check what is registered as a failed or as a success
    side effect. *)
Lemma validator_checks_failed_and_success_side_effects this x :
  _isFunction x = false →
  (validConfiguration (withFailedSideEffect x this)).1 = false
  ∧ (validConfiguration (withSuccessSideEffect x this)).1 = false.
Proof.
  intros Hx.
  assert (∀ l, x ∈ l → strategiesInvalid l = true) as Hinvalid.
  { intros l Hl. unfold strategiesInvalid. apply negb_true_iff.
    destruct (forallb _isFunction l) eqn:Hall; [|done].
    rewrite forallb_forall in Hall.
    rewrite <- Hx. symmetry. by apply Hall, list_elem_of_In. }
  unfold validConfiguration, push.
  cbn [method url headers queryParams maxRetry failedSideEffects
       successSideEffects withFailedSideEffect withSuccessSideEffect
       retryFallbackStrategy unauthorizedStrategy failedStrategy
       noContentStrategy successStrategy refreshTokenStrategy].
  split.
  - rewrite Hinvalid by set_solver. by repeat case_match.
  - rewrite Hinvalid by set_solver. by repeat case_match.
Qed.

(** It never looks at the unauthorizedSideEffects nor at the
    retryFallbackSideEffects: registering anything in either leaves its
    verdict as it was. *)
Lemma validator_skips_two_side_effect_sequences this x :
  validConfiguration (withUnauthorizedSideEffects x this)
  = validConfiguration this
  ∧ validConfiguration (withRetryFallbackSideEffects x this)
    = validConfiguration this.
Proof. by split. Qed.

End Properties.

(** * The properties on the example data *)

(** C1 as the specification states it fails: with a budget of one attempt, a
    401 whose refresh succeeds is followed by no dispatch at all; the
    re-entered call finds the budget exhausted and falls back, and the whole
    run has dispatched once. *)
Lemma refresh_on_last_attempt_is_followed_by_no_dispatch :
  let R := scripted [VObj 0; VObj 1] example_answers in
  let single :=
    withMaxRetries (VNum (Int 1))
      (withRefreshTokenStrategy (VFun (User "refresh")) example_builder) in
  @unauthorized R example_objects (VObj 0) = Some true
  ∧ example_answers "refresh" = VBool true
  ∧ @call R 2 single 0 example_state
    = Returned VUndefined
        {| heap := example_objects;
           trace := [Requested example_options; Called (User "refresh") [];
                     Called noop [ArgRequest example_request]] |}
  ∧ requests [Requested example_options; Called (User "refresh") [];
              Called noop [ArgRequest example_request]] = 1.
Proof. by vm_compute. Qed.

(** C1 amended, at work.  A 401 whose refresh succeeds re-enters [call] with
    the counter at 1: under the default budget of 2 a second attempt is
    dispatched, under a budget of 1 the run falls back with its single
    dispatch.  With the default refresh, which fails, the unauthorized
    strategy ends the run. *)
Lemma unauthorized_refresh_or_terminate_witness :
  let R := scripted [VObj 0; VObj 1] example_answers in
  let refreshing :=
    withRefreshTokenStrategy (VFun (User "refresh")) example_builder in
  let single := withMaxRetries (VNum (Int 1)) refreshing in
  let st2 := logged example_dispatched [Called (User "refresh") []] in
  (@call R 2 refreshing 0 example_state = @call R 1 refreshing 1 st2
   ∧ @call R 2 refreshing 0 example_state
     = @after_response R 0 refreshing 1 (VObj 1)
         (logged st2 [Requested example_options])
   ∧ requests (trace (logged st2 [Requested example_options])) = 2)
  ∧ (∃ v, @call R 2 single 0 example_state
          = Returned v (logged st2 [Called noop [ArgRequest example_request]])
        ∧ requests
            (trace (logged st2 [Called noop [ArgRequest example_request]]))
          = 1)
  ∧ ∃ v, @call R 1 example_builder 0 example_state
         = Returned v (logged example_dispatched
                         [Called refreshTokenStrategy_default [];
                          Called noop [ArgValue (VObj 0)]]).
Proof.
  intros R refreshing single st2. split; [|split].
  - destruct (proj1 (@unauthorized_refresh_or_terminate R 0 refreshing 0
                       example_state example_request (VObj 0)
                       example_dispatched (User "refresh") (VBool true)
                       ltac:(by vm_compute) ltac:(by vm_compute)
                       ltac:(by vm_compute) ltac:(by vm_compute)
                       ltac:(by vm_compute)) eq_refl)
      as (_ & _ & Hnext).
    destruct (Hnext ltac:(by vm_compute) example_request (VObj 1)
                (logged st2 [Requested example_options])
                ltac:(by vm_compute)) as (_ & Hrequests & Hcall).
    split; [|split; [exact Hcall|exact Hrequests]].
    refine (proj1 (proj1 (@unauthorized_refresh_or_terminate R 1 refreshing 0
                            example_state example_request (VObj 0)
                            example_dispatched (User "refresh") (VBool true)
                            _ _ _ _ _) _)); by vm_compute.
  - destruct (proj1 (@unauthorized_refresh_or_terminate R 0 single 0
                       example_state example_request (VObj 0)
                       example_dispatched (User "refresh") (VBool true)
                       ltac:(by vm_compute) ltac:(by vm_compute)
                       ltac:(by vm_compute) ltac:(by vm_compute)
                       ltac:(by vm_compute)) eq_refl)
      as (_ & Hfallback & _).
    exact (Hfallback ltac:(by vm_compute) [] noop eq_refl eq_refl).
  - destruct (proj2 (@unauthorized_refresh_or_terminate R 0 example_builder 0
                     example_state example_request (VObj 0) example_dispatched
                     refreshTokenStrategy_default (VBool false)
                     ltac:(by vm_compute) ltac:(by vm_compute)
                     ltac:(by vm_compute) ltac:(by vm_compute)
                     ltac:(by vm_compute)) eq_refl [] noop eq_refl eq_refl)
      as (v & _ & Hcall & _).
    exists v. exact Hcall.
Defined.


(** C3 as the specification states it fails: after one attempt with a
    bearer token the configuration's headers object, empty before, holds the
    Authorization header. *)
Lemma configuration_headers_are_written :
  let R := scripted [VObj 1] example_answers in
  let authorized := withAuthorization (VStr "t") example_builder in
  get example_objects (headers authorized) "Authorization" = Some VUndefined
  ∧ @call R 1 authorized 0 example_state
    = Returned (VStr "ok")
        {| heap := example_objects_with_bearer;
           trace := [Requested example_options;
                     Called successStrategy_default [ArgValue (VObj 1)]] |}
  ∧ get example_objects_with_bearer (headers authorized) "Authorization"
    = Some (VStr "Bearer t").
Proof. by vm_compute. Qed.

(** C3 amended, at work: the descriptor's headers are the configuration's
    object 4, the write lands there, and the run above leaves the status of
    response 1 as it was. *)
Lemma descriptor_shares_configuration_headers_witness :
  let R := scripted [VObj 1] example_answers in
  let authorized := withAuthorization (VStr "t") example_builder in
  @addHeader (request_of authorized example_objects) "Authorization"
    (VStr "Bearer t") example_state
  = Returned tt {| heap := example_objects_with_bearer; trace := [] |}
  ∧ ∃ st', final_state (@call R 1 authorized 0 example_state) = Some st'
         ∧ (heap st' !! 1 ≫= lookup "status" : option value)
           = example_objects !! 1 ≫= lookup "status".
Proof.
  intros R authorized. split.
  - exact (proj1 (proj2 (@descriptor_shares_configuration_headers R
                           authorized)) 4 (VStr "Bearer t") example_state
             eq_refl).
  - eexists. split; [vm_compute; reflexivity|].
    refine (proj2 (proj2 (proj2 (@descriptor_shares_configuration_headers R
                                   authorized)) 1 0 example_state _ _)
              1 "status" _ _);
      [vm_compute; reflexivity|cbn; lia|discriminate].
Defined.

(** C4 on a failing input: the number 42 registered as an unauthorized side
    effect, or as a retry-fallback side effect, passes validation; the engine
    starts and throws when it comes to call it. *)
Theorem non_callable_side_effect_passes_validation :
  let R := scripted [VObj 0] example_answers in
  let bad := withUnauthorizedSideEffects (VNum (Int 42)) example_builder in
  let bad' :=
    withRetryFallbackSideEffects (VNum (Int 42))
      (withMaxRetries (VNum (Int 0)) example_builder) in
  _isFunction (VNum (Int 42)) = false
  ∧ validConfiguration bad = (true, [])
  ∧ @send R 1 bad example_state
    = Threw (logged example_dispatched
               [Called refreshTokenStrategy_default []])
  ∧ validConfiguration bad' = (true, [])
  ∧ @send R 1 bad' example_state = Threw example_state.
Proof. by vm_compute. Qed.

(** C5 as the specification states it fails: a response whose direct status
    is 200 and whose nested status is 401 is not Unauthorized; it is a
    Success. *)
Lemma nested_401_under_status_200_is_success :
  let R := scripted [] example_answers in
  VObj 3 ≠ VUndefined
  ∧ @get example_objects (VObj 3) "response" = Some (VObj 0)
  ∧ @get example_objects (VObj 0) "status" = Some (VNum (Int 401))
  ∧ @test R re_401 example_objects (VNum (Int 401)) = true
  ∧ @unauthorized R example_objects (VObj 3) = Some false
  ∧ @classify R example_objects (VObj 3) = Some Success.
Proof. by vm_compute. Qed.

(** C5 amended, at work: response 0, whose direct status is 401. *)
Lemma tested_status_401_is_unauthorized_witness :
  let R := scripted [VObj 0] example_answers in
  @unauthorized R example_objects (VObj 0) = Some true
  ∧ @classify R example_objects (VObj 0) = Some Unauthorized
  ∧ @call R 1 example_builder 0 example_state
    = @after_refresh R 0 example_builder 0 (VObj 0) example_dispatched.
Proof.
  intros R.
  refine (@tested_status_401_is_unauthorized R 0 example_builder 0
            example_state example_request (VObj 0) example_dispatched
            (VNum (Int 401)) _ _ (or_introl _) _); by vm_compute.
Defined.

(** C6 at work: a transport that yields no response. *)
Lemma absent_response_is_failed_witness :
  let R := scripted [] example_answers in
  @classify R example_objects VUndefined = Some Failed
  ∧ ∃ v, @call R 1 example_builder 0 example_state
         = Returned v (logged example_dispatched
                         [Called failedStrategy_default [ArgValue VUndefined]]).
Proof.
  intros R.
  destruct (@absent_response_is_failed R 0 example_builder 0 example_state
              example_request example_dispatched [] failedStrategy_default
              ltac:(by vm_compute) ltac:(by vm_compute) eq_refl eq_refl)
    as (_ & Hclass & v & _ & Hcall).
  { intros f Hf. apply list_elem_of_In in Hf. cbn in Hf.
    destruct Hf as [<-|[]]. discriminate. }
  split; [apply Hclass|]. exists v. exact Hcall.
Defined.

(** C7 at work: the example builder with no budget. *)
Lemma zero_budget_falls_back_at_once_witness :
  let R := scripted [VObj 1] example_answers in
  let exhausted := withMaxRetries (VNum (Int 0)) example_builder in
  ∃ v, @call R 1 exhausted 0 example_state
       = Returned v (logged example_state
                       [Called noop [ArgRequest example_request]]).
Proof.
  intros R exhausted.
  destruct (@zero_budget_falls_back_at_once R 0 exhausted example_state []
              noop eq_refl eq_refl eq_refl) as (v & _ & Hcall & _).
  exists v. exact Hcall.
Defined.

(** C8 at work: a 200 goes to successStrategy. *)
Lemma success_side_effects_then_one_strategy_witness :
  let R := scripted [VObj 1] example_answers in
  ∃ v, @call R 1 example_builder 0 example_state
       = Returned v (logged example_dispatched
                       [Called successStrategy_default [ArgValue (VObj 1)]]).
Proof.
  intros R.
  destruct (@success_side_effects_then_one_strategy R 0 example_builder 0
              example_state example_request (VObj 1) example_dispatched []
              noContentStrategy_default successStrategy_default
              ltac:(by vm_compute) ltac:(by vm_compute) ltac:(by vm_compute)
              ltac:(by vm_compute) eq_refl eq_refl eq_refl)
    as (status & v & Hstatus & _ & Hcall & _).
  exists v. vm_compute in Hstatus. injection Hstatus as <-. exact Hcall.
Defined.

(** C9 at work: a new builder made a GET of [https://api.test/x]. *)
Lemma default_builder_passes_validation_witness :
  let R := scripted [VObj 1] example_answers in
  validConfiguration example_builder = (true, [])
  ∧ ∃ st', final_state (@send R 1 example_builder example_state) = Some st'
         ∧ requests (trace st') = 1.
Proof.
  intros R.
  destruct (@default_builder_passes_validation R 0
              {| heap := example_responses; trace := [] |}
              (HttpBuilder_fields (VObj 4)) example_state asGet
              "https://api.test/x" eq_refl ltac:(by left)
              ltac:(discriminate))
    as (Hvalid & _ & _ & _ & _ & _ & _ & Hsend).
  split; [exact Hvalid|exact Hsend].
Defined.

(** C10 as the specification states it fails: with a bearer token and a
    budget of one, a 401 followed by a successful refresh exhausts the
    budget, and the descriptor handed to retryFallbackStrategy carries the
    Authorization header the first attempt attached. *)
Lemma fallback_descriptor_carries_bearer :
  let R := scripted [VObj 0] example_answers in
  truthy (bearer example_bearer_builder) = true
  ∧ @call R 2 example_bearer_builder 0 example_state
    = Returned VUndefined
        {| heap := example_objects_with_bearer;
           trace := [Requested example_options; Called (User "refresh") [];
                     Called noop [ArgRequest example_request]] |}
  ∧ get example_objects_with_bearer (Headers example_request) "Authorization"
    = Some (VStr "Bearer t").
Proof. by vm_compute. Qed.

(** C10 amended, at work: the exhausted second call of that run hands over
    the headers as the first attempt left them. *)
Lemma fallback_descriptor_headers_witness :
  let R := scripted [VObj 0] example_answers in
  let st1 := {| heap := example_objects_with_bearer;
                trace := [Requested example_options;
                          Called (User "refresh") []] |} in
  ∃ v, @call R 1 example_bearer_builder 1 st1
       = Returned v (logged st1 [Called noop [ArgRequest example_request]])
     ∧ get example_objects_with_bearer (Headers example_request)
         "Authorization"
       = get example_objects_with_bearer (headers example_bearer_builder)
           "Authorization".
Proof.
  intros R st1.
  exact (@fallback_descriptor_headers R 0 example_bearer_builder 1 st1 []
           noop eq_refl eq_refl eq_refl).
Defined.

(** * Further properties: the validator, the client and the edges of the engine *)

Section Coverage.
Context `{Runtime}.

(** ** The validator and [send] *)

Lemma typeof_object_iff v :
  String.eqb (typeof v) "object" = true ↔ v = VNull ∨ ∃ l, v = VObj l.
Proof.
  destruct v; cbn; split; try done; eauto;
    intros [?|[? ?]]; done.
Qed.

Lemma typeof_number_iff v :
  String.eqb (typeof v) "number" = true ↔ ∃ n, v = VNum n.
Proof. destruct v; cbn; split; try done; eauto; intros [? ?]; done. Qed.

Lemma methodInvalid_false_iff m :
  methodInvalid m = false
  ↔ m ∈ [VStr "Get"; VStr "Post"; VStr "Put"; VStr "Delete"].
Proof.
  unfold methodInvalid. rewrite orb_false_iff, negb_false_iff.
  rewrite !bool_decide_eq_false, bool_decide_eq_true.
  change (VStr <$> HttpMethods.*2)
    with [VStr "Get"; VStr "Post"; VStr "Put"; VStr "Delete"].
  split; [tauto|]. intros Hm. split; [|done].
  intros ->. rewrite !elem_of_cons, elem_of_nil in Hm.
  by destruct Hm as [?|[?|[?|[?|[]]]]].
Qed.

Lemma strategiesInvalid_false_iff strategies :
  strategiesInvalid strategies = false
  ↔ ∀ v, v ∈ strategies → ∃ f, v = VFun f.
Proof.
  unfold strategiesInvalid. rewrite negb_false_iff, forallb_forall.
  split.
  - intros Hall v Hv%list_elem_of_In. apply Hall in Hv.
    destruct v; try done. eauto.
  - intros Hall v Hv%list_elem_of_In. by destruct (Hall v Hv) as [f ->].
Qed.

(** The validator reports nothing when it accepts and exactly one warning,
    that of the first check that fails, when it rejects. *)
Lemma validConfiguration_verdict configuration :
  validConfiguration configuration = (true, [])
  ∨ ∃ message, validConfiguration configuration = (false, [message]).
Proof.
  unfold validConfiguration, warnAndInvalidate. repeat case_match; eauto.
Qed.

(** X1. The validator accepts exactly the configurations whose method is one
    of the four names of [HttpMethods] (as spelled there), whose url is
    truthy, whose headers and query parameters are [null] or objects, whose
    [maxRetry] is a number, and whose six strategies, failed side effects and
    success side effects are all functions. *)
Theorem validConfiguration_accepts_iff configuration :
  (validConfiguration configuration).1 = true
  ↔ method configuration
      ∈ [VStr "Get"; VStr "Post"; VStr "Put"; VStr "Delete"]
    ∧ truthy (url configuration) = true
    ∧ (headers configuration = VNull
       ∨ ∃ l, headers configuration = VObj l)
    ∧ (queryParams configuration = VNull
       ∨ ∃ l, queryParams configuration = VObj l)
    ∧ (∃ n, maxRetry configuration = VNum n)
    ∧ ∀ v,
        v ∈ ([retryFallbackStrategy configuration;
              unauthorizedStrategy configuration;
              failedStrategy configuration;
              noContentStrategy configuration;
              successStrategy configuration;
              refreshTokenStrategy configuration]
             ++ failedSideEffects configuration
             ++ successSideEffects configuration)%list →
        ∃ f, v = VFun f.
Proof.
  rewrite <- methodInvalid_false_iff, <- !typeof_object_iff,
    <- typeof_number_iff.
  assert ((∀ v,
             v ∈ ([retryFallbackStrategy configuration;
                   unauthorizedStrategy configuration;
                   failedStrategy configuration;
                   noContentStrategy configuration;
                   successStrategy configuration;
                   refreshTokenStrategy configuration]
                  ++ failedSideEffects configuration
                  ++ successSideEffects configuration)%list →
             ∃ f, v = VFun f)
          ↔ strategiesInvalid
              ([retryFallbackStrategy configuration;
                unauthorizedStrategy configuration;
                failedStrategy configuration;
                noContentStrategy configuration;
                successStrategy configuration]
               ++ failedSideEffects configuration
               ++ successSideEffects configuration
               ++ [refreshTokenStrategy configuration])%list = false)
    as ->.
  { rewrite strategiesInvalid_false_iff.
    split; intros Hall v Hv; apply Hall;
      rewrite ?elem_of_app, ?elem_of_cons, ?elem_of_nil in *; tauto. }
  unfold validConfiguration, warnAndInvalidate.
  destruct (methodInvalid _); [cbn; split; [done|by intros [? _]]|].
  destruct (truthy (url _)); cbn [negb];
    [|cbn; split; [done|by intros (_ & ? & _)]].
  destruct (String.eqb (typeof (headers _)) _); cbn [negb];
    [|cbn; split; [done|by intros (_ & _ & ? & _)]].
  destruct (String.eqb (typeof (queryParams _)) _); cbn [negb];
    [|cbn; split; [done|by intros (_ & _ & _ & ? & _)]].
  destruct (String.eqb (typeof (maxRetry _)) _); cbn [negb];
    [|cbn; split; [done|by intros (_ & _ & _ & _ & ? & _)]].
  destruct (strategiesInvalid _); cbn; split; try done.
  by intros (_ & _ & _ & _ & _ & ?).
Qed.

(** X2. [send] on a configuration the validator rejects does nothing but
    warn once: it yields [undefined], whatever the fuel, without building a
    descriptor, dispatching, calling any function or touching the store. *)
Theorem send_rejected_only_warns fuel this st :
  (validConfiguration this).1 = false →
  ∃ message,
    validConfiguration this = (false, [message])
    ∧ send fuel this st = Returned VUndefined (logged st [Warned message]).
Proof.
  intros Hrejected.
  destruct (validConfiguration_verdict this) as [Hv|[message Hv]];
    [by rewrite Hv in Hrejected|].
  exists message. split; [done|]. by rewrite send_unfold, Hv.
Qed.

(** ** The client *)

Lemma HttpClient_of_valid_method σ m :
  m ∈ [VStr "Get"; VStr "Post"; VStr "Put"; VStr "Delete"] →
  is_Some (HttpClient σ m).
Proof.
  rewrite !elem_of_cons, elem_of_nil.
  intros [->|[->|[->|[->|[]]]]]; vm_compute; eauto.
Qed.

(** What the engine relies on in a configuration the validator accepts. *)
Lemma accepted_method_and_headers configuration :
  (validConfiguration configuration).1 = true →
  method configuration ∈ [VStr "Get"; VStr "Post"; VStr "Put"; VStr "Delete"]
  ∧ (headers configuration = VNull ∨ ∃ l, headers configuration = VObj l).
Proof.
  unfold validConfiguration, warnAndInvalidate.
  destruct (methodInvalid _) eqn:Hm; [done|].
  destruct (truthy (url _)); cbn [negb]; [|done].
  destruct (String.eqb (typeof (headers _)) _) eqn:Hh; cbn [negb]; [|done].
  intros _. split; [by apply methodInvalid_false_iff|].
  by apply typeof_object_iff.
Qed.

(** With ordinary headers objects, the ones [assign] represents, the
    header write returns, and so does the whole attempt. *)
Lemma valid_attempt_returns configuration st :
  (validConfiguration configuration).1 = true →
  ∃ request response st1,
    attempt configuration st = Returned (request, response) st1.
Proof.
  intros [Hm Hh]%accepted_method_and_headers.
  rewrite attempt_unfold. cbv zeta.
  assert (∃ st0,
            (if truthy (bearer configuration)
             then addHeader (request_of configuration (heap st))
                    "Authorization"
                    (VStr ("Bearer "
                           ++ toString (heap_built configuration (heap st))
                                (bearer configuration)))
             else mret ())
              {| heap := heap_built configuration (heap st);
                 trace := trace st |}
            = Returned () st0) as (st0 & ->).
  { destruct (truthy (bearer configuration)); [|by eexists].
    unfold addHeader, assign, request_of. cbn [Headers].
    destruct Hh as [->|[l ->]]; cbn; by eexists. }
  destruct (HttpClient_of_valid_method (heap st0) _ Hm) as [client Hc].
  unfold dispatch, mbind, M_bind, getHeap. rewrite Hc. cbn. eauto.
Qed.

(** X3. An attempt of a configuration the validator accepts can throw only
    where the bearer is written into the headers (line 84), which does not
    happen without a bearer.  Once that write has returned, the client of the
    configured method exists and the attempt dispatches exactly once, on the
    descriptor built from the configuration, its response being what the
    transport yields. *)
Theorem valid_attempt_dispatches_once configuration st :
  (validConfiguration configuration).1 = true →
  let request := request_of configuration (heap st) in
  let built := {| heap := heap_built configuration (heap st);
                  trace := trace st |} in
  (truthy (bearer configuration) = false →
   attach_bearer configuration request built = Returned () built)
  ∧ ∀ st0,
      attach_bearer configuration request built = Returned () st0 →
      ∃ client response st1,
        HttpClient (heap st1) (method configuration) = Some client
        ∧ attempt configuration st = Returned (request, response) st1
        ∧ trace st1 = (trace st ++ [Requested (client request)])%list
        ∧ requests (trace st1) = S (requests (trace st))
        ∧ response = axios (trace st1) (heap st1) (client request).
Proof.
  intros Hvalid request built. split.
  - intros Hbearer. unfold attach_bearer, mbind, M_bind, getHeap.
    by rewrite Hbearer.
  - intros st0 Hattach.
    destruct (accepted_method_and_headers _ Hvalid) as [Hm _].
    assert (∃ response st1,
              attempt configuration st = Returned (request, response) st1)
      as (response & st1 & Hattempt).
    { rewrite attempt_unfold. cbv zeta.
      change ((if truthy (bearer configuration) then _ else _) _)
        with (attach_bearer configuration request built).
      rewrite Hattach.
      destruct (HttpClient_of_valid_method (heap st0) _ Hm) as [client Hc].
      unfold dispatch, mbind, M_bind, getHeap. rewrite Hc. cbn. eauto. }
    pose proof (attempt_requests _ _ _ _ _ Hattempt) as Hreq.
    pose proof Hattempt as (_ & client & Hc & Htr & Hresponse)%attempt_Returned.
    by exists client, response, st1.
Qed.

(** X4. What each client method forwards to [axios].  All four forward the
    url and the descriptor's headers.  A GET forwards the query parameters
    and the response type but drops the body; a POST forwards the body but
    drops the query parameters and the response type; a PUT and a DELETE
    forward the body and the query parameters but drop the response type. *)
Theorem client_forwards configuration st request response st1 :
  attempt configuration st = Returned (request, response) st1 →
  ∃ options,
    trace st1 = (trace st ++ [Requested options])%list
    ∧ Axios.url options = url configuration
    ∧ Axios.headers options = Headers request
    ∧ (method configuration = VStr "Get" →
       Axios.method options = "GET"
       ∧ Axios.data options = VUndefined
       ∧ Axios.params options = queryParams configuration
       ∧ Axios.responseType options = responseType configuration)
    ∧ (method configuration = VStr "Post" →
       Axios.method options = "POST"
       ∧ Axios.data options = body configuration
       ∧ Axios.params options = VUndefined
       ∧ Axios.responseType options = VUndefined)
    ∧ (method configuration = VStr "Put" →
       Axios.method options = "PUT"
       ∧ Axios.data options = body configuration
       ∧ Axios.params options = queryParams configuration
       ∧ Axios.responseType options = VUndefined)
    ∧ (method configuration = VStr "Delete" →
       Axios.method options = "DELETE"
       ∧ Axios.data options = body configuration
       ∧ Axios.params options = queryParams configuration
       ∧ Axios.responseType options = VUndefined).
Proof.
  intros (-> & client & Hc & Htr & _)%attempt_Returned.
  exists (client (request_of configuration (heap st))).
  split; [exact Htr|].
  unfold HttpClient in Hc.
  repeat case_decide; simplify_eq; cbn;
    split_and!; try done; intros Hm; rewrite Hm in *; cbn in *; done.
Qed.

(** The store an attempt leaves is the one its header write leaves. *)
Lemma attempt_Returned_heap configuration st request response st1 :
  attempt configuration st = Returned (request, response) st1 →
  ∃ st0,
    (if truthy (bearer configuration)
     then addHeader (request_of configuration (heap st)) "Authorization"
            (VStr ("Bearer "
                   ++ toString (heap_built configuration (heap st))
                        (bearer configuration)))
     else mret ())
      {| heap := heap_built configuration (heap st); trace := trace st |}
    = Returned () st0
    ∧ heap st1 = heap st0.
Proof.
  rewrite attempt_unfold. cbv zeta.
  destruct (if truthy (bearer configuration) then _ else _)
    as [[] st0| |]; [|done..].
  unfold dispatch, mbind, M_bind, getHeap.
  destruct (HttpClient _ _); cbn; [|done].
  inversion 1; subst. by exists st0.
Qed.

(** X5. The bearer token and the descriptor.  With a truthy bearer the
    headers object of the dispatched descriptor holds
    [Authorization: Bearer <token>], whatever it held before; with a falsy
    bearer ([null], the empty string, 0) the attempt writes nothing. *)
Theorem bearer_is_attached_before_dispatch
    configuration st request response st1 :
  attempt configuration st = Returned (request, response) st1 →
  (headers configuration = VNull
   ∨ ∃ l, headers configuration = VObj l ∧ l < length (heap st)) →
  (truthy (bearer configuration) = true →
   get (heap st1) (Headers request) "Authorization"
   = Some (VStr ("Bearer "
                 ++ toString (heap_built configuration (heap st))
                      (bearer configuration))))
  ∧ (truthy (bearer configuration) = false →
     heap st1 = heap_built configuration (heap st)).
Proof.
  intros Hattempt Hheaders.
  pose proof Hattempt as [-> _]%attempt_Returned.
  apply attempt_Returned_heap in Hattempt as (st0 & Hauth & ->).
  destruct (truthy (bearer configuration)); split; try done; intros _.
  - revert Hauth.
    generalize (VStr ("Bearer "
                      ++ toString (heap_built configuration (heap st))
                           (bearer configuration))).
    unfold addHeader, assign, request_of, heap_built. cbn [Headers].
    intros v Hauth.
    destruct Hheaders as [Hnull|(l & Hl & Hlen)].
    + rewrite Hnull in *. cbn [truthy] in *. simplify_eq. cbn [heap get].
      rewrite list_lookup_alter_eq, lookup_app_r, Nat.sub_diag by done.
      cbn. by rewrite lookup_insert_eq.
    + rewrite Hl in *. cbn [truthy] in *. simplify_eq. cbn [heap get].
      rewrite list_lookup_alter_eq.
      destruct (lookup_lt_is_Some_2 (heap st) l Hlen) as [o ->]. cbn.
      by rewrite lookup_insert_eq.
  - unfold mret, M_ret in Hauth. by simplify_eq.
Qed.

(** ** Classification *)

Lemma falsy_not_2xx σ v : truthy v = false → test re_2xx σ v = false.
Proof.
  destruct v as [| |[]|[z| | |]|s| |]; try done; cbn.
  - rewrite negb_false_iff. intros ->%Z.eqb_eq. reflexivity.
  - rewrite negb_false_iff. intros ->%String.eqb_eq. reflexivity.
Qed.

Lemma falsy_not_204 σ v : truthy v = false → test re_204 σ v = false.
Proof.
  destruct v as [| |[]|[z| | |]|s| |]; try done; cbn.
  - rewrite negb_false_iff. intros ->%Z.eqb_eq. reflexivity.
  - rewrite negb_false_iff. intros ->%String.eqb_eq. reflexivity.
Qed.

(** The three tests on the decimal text of a status code from 100 to 599. *)
Lemma tests_of_status_codes z :
  (100 ≤ z ≤ 599)%Z →
  regexp_search re_401 (number_toString (Int z)) = (z =? 401)%Z
  ∧ regexp_search re_2xx (number_toString (Int z))
    = ((200 <=? z) && (z <=? 299))%Z
  ∧ regexp_search re_204 (number_toString (Int z)) = (z =? 204)%Z.
Proof.
  intros Hz.
  pose (check := λ z : Z,
    Bool.eqb (regexp_search re_401 (number_toString (Int z))) (z =? 401)%Z
    && Bool.eqb (regexp_search re_2xx (number_toString (Int z)))
         ((200 <=? z) && (z <=? 299))%Z
    && Bool.eqb (regexp_search re_204 (number_toString (Int z)))
         (z =? 204)%Z).
  assert (forallb check (map Z.of_nat (seq 100 500)) = true) as Hall
    by (vm_compute; reflexivity).
  rewrite forallb_forall in Hall.
  assert (check z = true) as Hcheck.
  { apply Hall. rewrite <- (Z2Nat.id z) by lia.
    apply in_map, in_seq. lia. }
  unfold check in Hcheck.
  apply andb_true_iff in Hcheck as [[H401 H2xx]%andb_true_iff H204].
  by apply eqb_prop in H401, H2xx, H204.
Qed.

Lemma test_of_status_code re σ z :
  (100 ≤ z ≤ 599)%Z →
  test re σ (VNum (Int z)) = regexp_search re (number_toString (Int z)).
Proof.
  intros Hz. unfold test, toString, prints_plainly.
  replace (Z.abs z <? 10 ^ 21)%Z with true; [done|].
  symmetry. apply Z.ltb_lt.
  change (10 ^ 21)%Z with 1000000000000000000000%Z. lia.
Qed.

(** X6. A response whose direct status is a status code from 100 to 599 is
    classified as the standard reads the code: Unauthorized for 401,
    NoContent for 204, Success for every other 2xx, Failed otherwise,
    whatever else the response holds. *)
Theorem status_codes_are_classified_by_the_standard σ res z :
  get σ res "status" = Some (VNum (Int z)) →
  (100 ≤ z ≤ 599)%Z →
  classify σ res = Some (http_class z).
Proof.
  intros Hstatus Hz.
  destruct (tests_of_status_codes z Hz) as (H401 & H2xx & H204).
  assert (truthy res = true) as Hres.
  { destruct res; cbn in Hstatus; by simplify_eq. }
  assert (truthy (VNum (Int z)) = true) as Htruthy.
  { cbn. apply negb_true_iff, Z.eqb_neq. lia. }
  assert (res ≠ VUndefined) as Hdef by (by intros ->).
  assert (status_or_nested σ res = Some (VNum (Int z))) as Hnested.
  { unfold status_or_nested. rewrite Hstatus. cbn. cbn in Htruthy.
    by rewrite Htruthy. }
  assert (unauthorized σ res = Some (z =? 401)%Z) as Hu.
  { unfold unauthorized. rewrite Hres, Hnested.
    change (Some (test re_401 σ (VNum (Int z))) = Some (z =? 401)%Z).
    by rewrite test_of_status_code, H401. }
  assert (isAFailedHttpResponse σ res
          = Some (negb ((200 <=? z) && (z <=? 299))%Z)) as Hf.
  { unfold isAFailedHttpResponse. rewrite decide_False, Hnested by done.
    change (Some (negb (test re_2xx σ (VNum (Int z))))
            = Some (negb ((200 <=? z) && (z <=? 299))%Z)).
    by rewrite test_of_status_code, H2xx. }
  assert (noContent σ res = Some (z =? 204)%Z) as Hn.
  { unfold noContent. rewrite Hstatus.
    change (Some (test re_204 σ (VNum (Int z))) = Some (z =? 204)%Z).
    by rewrite test_of_status_code, H204. }
  unfold classify, http_class. rewrite Hu, Hf, Hn. cbn.
  destruct (z =? 401)%Z eqn:E401; [done|].
  destruct ((200 <=? z) && (z <=? 299))%Z eqn:E2xx; cbn.
  - by destruct (z =? 204)%Z.
  - destruct (z =? 204)%Z eqn:E204; [|done].
    apply Z.eqb_eq in E204. by subst z.
Qed.

(** X7. A response with neither a truthy direct status nor a truthy nested
    response, as the error object of a request that never reached the server
    is, is classified Failed. *)
Theorem response_without_status_is_failed σ res status nested :
  get σ res "status" = Some status →
  truthy status = false →
  get σ res "response" = Some nested →
  truthy nested = false →
  classify σ res = Some Failed.
Proof.
  intros Hstatus Hfalsy Hresponse Hnested.
  assert (res ≠ VUndefined) as Hdef by (by intros ->).
  assert (unauthorized σ res = Some false) as Hu.
  { unfold unauthorized, status_or_nested.
    destruct (truthy res) eqn:Hres.
    - rewrite Hstatus. cbn. rewrite Hfalsy, Hresponse. cbn.
      rewrite Hnested. cbn. by rewrite falsy_not_401.
    - cbn. by rewrite falsy_not_401. }
  unfold classify, isAFailedHttpResponse, status_or_nested.
  rewrite Hu. cbn. rewrite decide_False by done.
  rewrite Hstatus. cbn. rewrite Hfalsy, Hresponse. cbn.
  rewrite Hnested. cbn. by rewrite falsy_not_2xx.
Qed.

(** X8. When the direct status is falsy the nested status decides between
    Unauthorized, Failed and the success path, but never selects NoContent:
    [noContent] reads the direct status only, so a nested 2xx status, 204
    included, is classified Success. *)
Theorem nested_2xx_is_success_even_204 σ res direct nested status :
  get σ res "status" = Some direct →
  truthy direct = false →
  get σ res "response" = Some nested →
  truthy nested = true →
  get σ nested "status" = Some status →
  test re_2xx σ status = true →
  test re_401 σ status = false →
  classify σ res = Some Success.
Proof.
  intros Hdirect Hfalsy Hresponse Hnested Hstatus H2xx H401.
  assert (truthy res = true) as Hres.
  { destruct res; cbn in Hresponse; simplify_eq; done. }
  assert (res ≠ VUndefined) as Hdef by (by intros ->).
  assert (status_or_nested σ res = Some status) as Hsn.
  { unfold status_or_nested. rewrite Hdirect. cbn.
    rewrite Hfalsy, Hresponse. cbn. by rewrite Hnested. }
  assert (unauthorized σ res = Some false) as Hu.
  { unfold unauthorized. rewrite Hres, Hsn. cbn. by rewrite H401. }
  assert (isAFailedHttpResponse σ res = Some false) as Hf.
  { unfold isAFailedHttpResponse. rewrite decide_False, Hsn by done.
    cbn. by rewrite H2xx. }
  assert (noContent σ res = Some false) as Hn.
  { unfold noContent. rewrite Hdirect. cbn. by rewrite falsy_not_204. }
  unfold classify. by rewrite Hu, Hf, Hn.
Qed.

(** X9. A [null] response is not guarded against as [undefined] is: the
    failure test reads its status and throws, so the run ends in a TypeError
    right after the dispatch, no side effect and no strategy being called. *)
Theorem null_response_throws fuel configuration retry st request st1 :
  ge (heap_built configuration (heap st)) retry (maxRetry configuration)
  = false →
  attempt configuration st = Returned (request, VNull) st1 →
  isAFailedHttpResponse (heap st1) VNull = None
  ∧ call (S fuel) configuration retry st = Threw st1
  ∧ ∃ options, trace st1 = (trace st ++ [Requested options])%list.
Proof.
  intros Hge Hattempt. split; [done|]. split.
  - by rewrite call_attempt, Hattempt.
  - apply attempt_Returned in Hattempt as (_ & client & _ & Htr & _).
    by eexists.
Qed.

(** ** The retry budget *)

(** The status of an object the engine found is not what it writes. *)
Lemma status_kept configuration (σ σ' : store) l (status : value) :
  unchanged_but_authorization configuration σ σ' →
  σ !! l ≫= lookup "status" = Some status →
  σ' !! l ≫= lookup "status" = Some status.
Proof.
  intros [_ Hsame] Hstatus. rewrite Hsame; [done| |done].
  apply lookup_lt_is_Some. by destruct (σ !! l).
Qed.

(** X10. [NaN] and [Infinity] are numbers for the validator, but no attempt
    counter reaches them: the budget is never exhausted.  Against a transport
    that always answers with an object whose status is 401 and a refresh that
    always succeeds, [call] never finishes, whatever the fuel. *)
Theorem unbounded_budget_never_falls_back configuration r l :
  (validConfiguration configuration).1 = true →
  maxRetry configuration = VNum NaN
  ∨ maxRetry configuration = VNum Infinity →
  refreshTokenStrategy configuration = VFun r →
  (∀ tr σ options, axios tr σ options = VObj l) →
  (∀ tr σ, ∃ v, fn_value tr σ r [] = Some v ∧ truthy v = true) →
  ∀ fuel retry st,
    heap st !! l ≫= lookup "status" = Some (VNum (Int 401)) →
    call fuel configuration retry st = OutOfFuel.
Proof.
  intros Hvalid Hmax Hr Haxios Hrefresh.
  assert (∀ σ retry, ge σ retry (maxRetry configuration) = false) as Hge.
  { intros. by destruct Hmax as [-> | ->]. }
  induction fuel as [|fuel IH]; intros retry st Hstatus; [done|].
  rewrite call_attempt by apply Hge.
  destruct (valid_attempt_returns configuration st Hvalid)
    as (request & response & st1 & Hattempt).
  destruct (attempt_final configuration st) as (st1' & Hfin & Hun & _).
  rewrite Hattempt in Hfin |- *. cbn in Hfin. injection Hfin as <-.
  apply attempt_Returned in Hattempt as (_ & client & _ & _ & ->).
  rewrite Haxios.
  apply (status_kept _ _ _ _ _ Hun) in Hstatus.
  assert (classify (heap st1) (VObj l) = Some Unauthorized) as ->.
  { unfold classify, unauthorized, status_or_nested, get. cbn [truthy].
    rewrite Hstatus. reflexivity. }
  unfold after_refresh. rewrite Hr.
  destruct (Hrefresh (trace st1 ++ [Called r []])%list (heap st1))
    as (v & Hv & Htruthy).
  erewrite bind_Returned by (by apply invoke_returns).
  rewrite Htruthy. by apply IH.
Qed.

(** X11. For every integer budget [send] terminates, on any fuel above the
    budget, after at most that many dispatches; a negative budget counts as
    zero. *)
Theorem send_terminates_for_every_integer_budget this z fuel st :
  maxRetry this = VNum (Int z) →
  Z.to_nat z < fuel →
  ∃ st', final_state (send fuel this st) = Some st'
       ∧ requests (trace st') ≤ requests (trace st) + Z.to_nat z.
Proof.
  intros Hmax Hfuel. rewrite send_unfold.
  destruct (validConfiguration_verdict this) as [->|[message ->]].
  - change (∃ st', final_state (call fuel this 0 st) = Some st'
                 ∧ requests (trace st') ≤ requests (trace st) + Z.to_nat z).
    destruct (decide (0 ≤ z)%Z) as [Hz|Hz].
    + replace fuel with (S (Z.to_nat z + (fuel - S (Z.to_nat z)))) by lia.
      apply (call_final_bounded this (Z.to_nat z)); [|lia].
      by rewrite Z2Nat.id.
    + destruct fuel as [|fuel]; [lia|].
      rewrite call_exhausted.
      2:{ rewrite Hmax. cbn. apply Z.leb_le. lia. }
      match goal with
      | |- context [(forEach ?l _;; invoke ?v ?args) ?st0] =>
          destruct (handlers_still l v args st0) as (st' & ? & _ & Hreq)
      end.
      exists st'. split; [done|]. cbn in Hreq. lia.
  - eexists. split; [reflexivity|]. cbn. rewrite requests_app.
    change (requests [Warned message]) with 0. lia.
Qed.

(** ** What a run writes *)

(** X12. When the configuration has no headers object ([null] passes the
    validator) every descriptor gets an object of its own, and a run changes
    no object it found: the store only grows. *)
Theorem run_without_headers_object_only_allocates
    configuration fuel retry st st' :
  truthy (headers configuration) = false →
  final_state (call fuel configuration retry st) = Some st' →
  ∃ new, heap st' = (heap st ++ new)%list.
Proof.
  intros Hfalsy [Hlen Hsame]%call_unchanged.
  exists (drop (length (heap st)) (heap st')).
  rewrite <- (take_drop (length (heap st)) (heap st')) at 1. f_equal.
  apply list_eq. intros i.
  destruct (decide (i < length (heap st))) as [Hi|Hi].
  - rewrite lookup_take_lt by done.
    destruct (lookup_lt_is_Some_2 (heap st) i Hi) as [o Ho].
    destruct (lookup_lt_is_Some_2 (heap st') i ltac:(lia)) as [o' Ho'].
    rewrite Ho, Ho'. f_equal. apply map_eq. intros k.
    specialize (Hsame i k Hi). rewrite Ho, Ho' in Hsame. apply Hsame.
    intros Hobj. by rewrite Hobj in Hfalsy.
  - rewrite lookup_take_ge, lookup_ge_None_2 by lia. done.
Qed.

Lemma attempt_final_without_bearer configuration st :
  truthy (bearer configuration) = false →
  ∃ st1, final_state (attempt configuration st) = Some st1
       ∧ heap st1 = heap_built configuration (heap st).
Proof.
  intros Hbearer. rewrite attempt_unfold. cbv zeta. rewrite Hbearer.
  unfold mret, M_ret.
  match goal with
  | |- context [dispatch ?m ?r ?st0] =>
      destruct (dispatch_final m r st0) as (st1 & Hfin & Hheap & _)
  end.
  by exists st1.
Qed.

(** X13. Without a bearer token a run writes no object at all: the store it
    ends in is the one it started from, followed by the empty headers
    objects of the descriptors built when the configuration has none. *)
Theorem run_without_bearer_writes_nothing configuration fuel :
  truthy (bearer configuration) = false →
  ∀ retry st st',
    final_state (call fuel configuration retry st) = Some st' →
    ∃ k, heap st' = (heap st ++ replicate k ∅)%list
       ∧ (truthy (headers configuration) = true → k = 0).
Proof.
  intros Hbearer.
  assert (∀ σ, ∃ k, heap_built configuration σ = (σ ++ replicate k ∅)%list
                  ∧ (truthy (headers configuration) = true → k = 0))
    as Hbuilt.
  { intros σ. unfold heap_built.
    destruct (truthy (headers configuration)).
    - exists 0. by rewrite app_nil_r.
    - by exists 1. }
  assert (∀ σ σ1 σ2 : store,
            (∃ k, σ1 = (σ ++ replicate k ∅)%list
                ∧ (truthy (headers configuration) = true → k = 0)) →
            (∃ k, σ2 = (σ1 ++ replicate k ∅)%list
                ∧ (truthy (headers configuration) = true → k = 0)) →
            ∃ k, σ2 = (σ ++ replicate k ∅)%list
               ∧ (truthy (headers configuration) = true → k = 0))
    as Htrans.
  { intros σ σ1 σ2 (k1 & -> & H1) (k2 & -> & H2). exists (k1 + k2).
    rewrite replicate_add, app_assoc. split; [done|].
    intros Ht. rewrite H1, H2 by done. done. }
  induction fuel as [|fuel IH]; intros retry st st' Hfin; [done|].
  destruct (ge (heap_built configuration (heap st)) retry
              (maxRetry configuration)) eqn:Hge.
  - rewrite call_exhausted in Hfin by done.
    match type of Hfin with
    | context [(forEach ?l _;; invoke ?v ?args) ?st0] =>
        destruct (handlers_still l v args st0) as (st'' & Hfin' & Hheap & _)
    end.
    rewrite Hfin' in Hfin. simplify_eq. cbn in Hheap. rewrite Hheap.
    apply Hbuilt.
  - rewrite call_attempt in Hfin by done.
    destruct (attempt_final_without_bearer configuration st Hbearer)
      as (st1 & Hfin1 & Hheap1).
    pose proof (Hbuilt (heap st)) as Hst1. rewrite <- Hheap1 in Hst1.
    destruct (attempt configuration st) as [[request response] st1'|st1'|];
      cbn in Hfin1; simplify_eq; [|by cbn in Hfin; simplify_eq].
    destruct (classify (heap st1) response) as [[]|];
      [|match type of Hfin with
        | context [(forEach ?l _;; invoke ?v ?args) st1] =>
            destruct (handlers_still l v args st1)
              as (st'' & Hfin' & Hheap & _);
            rewrite Hfin' in Hfin; simplify_eq; by rewrite Hheap
        end..|by cbn in Hfin; simplify_eq].
    unfold after_refresh, mbind at 1, M_bind at 1 in Hfin.
    destruct (invoke_still (refreshTokenStrategy configuration) [] st1)
      as (st2 & Hfin2 & Hheap2 & _).
    destruct (invoke (refreshTokenStrategy configuration) [] st1)
      as [refreshed st2'|st2'|]; cbn in Hfin2; simplify_eq;
      [|cbn in Hfin; simplify_eq; by rewrite Hheap2].
    destruct (truthy refreshed).
    + apply IH in Hfin. rewrite Hheap2 in Hfin.
      by apply (Htrans (heap st) (heap st1) (heap st')).
    + match type of Hfin with
      | context [(forEach ?l _;; invoke ?v ?args) st2] =>
          destruct (handlers_still l v args st2)
            as (st'' & Hfin' & Hheap & _)
      end.
      rewrite Hfin' in Hfin. simplify_eq. by rewrite Hheap, Hheap2.
Qed.

(** ** The regular expressions are searches, not equalities *)

Lemma matches_here_literal l s :
  matches_here (Lit <$> l) s = true
  ↔ ∃ b, s = string_of_list_ascii l ++ b.
Proof.
  revert s. induction l as [|c l IH]; intros s; cbn.
  - split; [by exists s|done].
  - destruct s as [|c' s]; [split; [done|by intros [? ?]]|].
    rewrite andb_true_iff, Ascii.eqb_eq, IH. split.
    + intros [-> [b ->]]. by exists b.
    + intros [b Hb]. injection Hb as -> ->. eauto.
Qed.

Lemma regexp_search_literal l s :
  regexp_search (Lit <$> l) s = true
  ↔ ∃ a b, s = a ++ string_of_list_ascii l ++ b.
Proof.
  induction s as [|c s IH]; cbn [regexp_search];
    rewrite orb_true_iff, matches_here_literal.
  - split.
    + intros [[b Hb]|?]; [by exists "", b|done].
    + intros (a & b & Hab). left. exists b.
      destruct a; [done|discriminate].
  - rewrite IH. split.
    + intros [[b Hb]|(a & b & ->)]; [by exists "", b|].
      by exists (String c a), b.
    + intros ([|c' a] & b & Hab); [left; by exists b|right].
      injection Hab as -> ->. eauto.
Qed.

Lemma search_401 s :
  regexp_search re_401 s = true ↔ ∃ a b, s = a ++ "401" ++ b.
Proof. exact (regexp_search_literal ["4"; "0"; "1"]%char s). Qed.

(** X14. [unauthorized] is a search: a response is unauthorized exactly when
    it is truthy and the text of its tested status (the direct status, or the
    nested one when the direct status is falsy) contains 401 somewhere, so
    that a status of 4010, or the string x401, counts as much as 401. *)
Theorem unauthorized_iff_status_text_contains_401 σ res :
  unauthorized σ res = Some true
  ↔ truthy res = true
    ∧ ∃ status a b,
        status_or_nested σ res = Some status
        ∧ toString σ status = a ++ "401" ++ b.
Proof.
  unfold unauthorized, test.
  destruct (truthy res) eqn:Hres.
  - destruct (status_or_nested σ res) as [status|]; cbn.
    + split.
      * intros [= (a & b & Hab)%search_401].
        split; [done|]. by exists status, a, b.
      * intros (_ & status' & a & b & [= <-] & Hab).
        f_equal. apply search_401. by exists a, b.
    + split; [done|]. by intros (_ & ? & ? & ? & ? & _).
  - cbn. split; [|by intros [? _]].
    intros [= Hsearch].
    pose proof (falsy_not_401 σ res Hres) as Hnot. unfold test in Hnot.
    by rewrite Hnot in Hsearch.
Qed.

(** ** The builder's sequences and [forEach] *)

(** X15. Registering side effects one after the other appends them: each of
    the four sequences of the builder is what it was followed by the
    registered functions in registration order, which is the order in which
    [forEach] calls them. *)
Theorem side_effects_keep_registration_order fs this :
  successSideEffects (registered withSuccessSideEffect fs this)
  = (successSideEffects this ++ fs)%list
  ∧ failedSideEffects (registered withFailedSideEffect fs this)
    = (failedSideEffects this ++ fs)%list
  ∧ unauthorizedSideEffects (registered withUnauthorizedSideEffects fs this)
    = (unauthorizedSideEffects this ++ fs)%list
  ∧ retryFallbackSideEffects
      (registered withRetryFallbackSideEffects fs this)
    = (retryFallbackSideEffects this ++ fs)%list.
Proof.
  unfold registered. revert this.
  induction fs as [|f fs IH]; intros this; cbn [foldl].
  - by rewrite !app_nil_r.
  - destruct (IH (withSuccessSideEffect f this)) as (-> & _).
    destruct (IH (withFailedSideEffect f this)) as (_ & -> & _).
    destruct (IH (withUnauthorizedSideEffects f this)) as (_ & _ & -> & _).
    destruct (IH (withRetryFallbackSideEffects f this)) as (_ & _ & _ & ->).
    cbn. unfold push. by rewrite <- !app_assoc.
Qed.

(** X16. A member of a side-effect sequence that is not a function stops the
    run with a TypeError when its turn comes: the members before it have been
    called, those after it are not, and neither is the strategy. *)
Theorem non_function_side_effect_stops_the_run
    fs v rest strategy args st :
  (∀ f tr σ, f ∈ fs → is_Some (fn_value tr σ f args)) →
  _isFunction v = false →
  (forEach ((VFun <$> fs) ++ v :: rest)%list (λ f, invoke f args);;
   invoke strategy args) st
  = Threw (logged st (Called_each fs args)).
Proof.
  intros Hfs Hv. unfold mbind at 1, M_bind at 1.
  assert (forEach ((VFun <$> fs) ++ v :: rest)%list
            (λ f, invoke f args) st
          = Threw (logged st (Called_each fs args))) as ->; [|done].
  revert st. induction fs as [|f fs IH]; intros st.
  - cbn. rewrite logged_nil. by destruct v.
  - cbn [fmap list_fmap app forEach].
    destruct (Hfs f (trace st ++ [Called f args])%list (heap st))
      as [w Hw]; [by left|].
    erewrite bind_Returned by (by apply invoke_returns).
    rewrite IH by (intros; apply Hfs; by right).
    by rewrite logged_logged.
Qed.

End Coverage.

(** * The further properties on the example data *)

(** X2 at work: a new builder with no method; [send] warns and stops, with
    no fuel at all. *)
Lemma send_rejected_only_warns_witness :
  let R := scripted [] example_answers in
  @send R 0 (HttpBuilder_fields (VObj 4)) example_state
  = Returned VUndefined
      (logged example_state
         [Warned "Http method not defined or is invalid"]).
Proof.
  intros R.
  destruct (@send_rejected_only_warns R 0 (HttpBuilder_fields (VObj 4))
              example_state eq_refl) as (message & Hverdict & Hsend).
  vm_compute in Hverdict. injection Hverdict as <-. exact Hsend.
Defined.

(** X3 at work: the example builder, which has no bearer, and the same
    builder with the token [t], whose write returns. *)
Lemma valid_attempt_dispatches_once_witness :
  let R := scripted [VObj 1] example_answers in
  let authorized := withAuthorization (VStr "t") example_builder in
  (∃ response st1,
     @attempt R example_builder example_state
     = Returned (example_request, response) st1
     ∧ requests (trace st1) = 1)
  ∧ ∃ response st1,
      @attempt R authorized example_state
      = Returned (example_request, response) st1
      ∧ requests (trace st1) = 1.
Proof.
  intros R authorized. split.
  - destruct (@valid_attempt_dispatches_once R example_builder example_state
                eq_refl) as [Hplain Hdispatch].
    destruct (Hdispatch _ (Hplain eq_refl))
      as (client & response & st1 & _ & Hattempt & _ & Hrequests & _).
    exists response, st1. split; [exact Hattempt|exact Hrequests].
  - destruct (@valid_attempt_dispatches_once R authorized example_state
                eq_refl) as [_ Hdispatch].
    destruct (Hdispatch {| heap := example_objects_with_bearer; trace := [] |}
                ltac:(vm_compute; reflexivity))
      as (client & response & st1 & _ & Hattempt & _ & Hrequests & _).
    exists response, st1. split; [exact Hattempt|exact Hrequests].
Defined.

(** X4 at work: the POST drops the query parameters it was given. *)
Lemma client_forwards_witness :
  let R := scripted [VObj 1] example_answers in
  queryParams example_post_builder = VObj 1
  ∧ ∃ options,
      Axios.method options = "POST"
      ∧ Axios.data options = VStr "payload"
      ∧ Axios.params options = VUndefined.
Proof.
  intros R. split; [reflexivity|].
  destruct (@client_forwards R example_post_builder example_state
              example_post_request (VObj 1)
              {| heap := example_objects;
                 trace := [Requested example_post_options] |}
              ltac:(vm_compute; reflexivity))
    as (options & _ & _ & _ & _ & Hpost & _).
  destruct (Hpost eq_refl) as (Hmethod & Hdata & Hparams & _).
  exists options. split; [exact Hmethod|]. split; [exact Hdata|exact Hparams].
Defined.

(** X5 at work: the token [t] on the example builder. *)
Lemma bearer_is_attached_before_dispatch_witness :
  let R := scripted [VObj 1] example_answers in
  get example_objects_with_bearer (VObj 4) "Authorization"
  = Some (VStr "Bearer t").
Proof.
  intros R.
  refine (proj1 (@bearer_is_attached_before_dispatch R
                   (withAuthorization (VStr "t") example_builder)
                   example_state example_request (VObj 1)
                   {| heap := example_objects_with_bearer;
                      trace := [Requested example_options] |} _ _)
            eq_refl).
  - vm_compute. reflexivity.
  - right. exists 4. split; [reflexivity|]. cbn. lia.
Defined.

(** X6 at work: the 200 and the 204 of the example data. *)
Lemma status_codes_are_classified_by_the_standard_witness :
  let R := scripted [] example_answers in
  @classify R example_objects (VObj 1) = Some Success
  ∧ @classify R example_objects (VObj 2) = Some NoContent.
Proof.
  intros R. split.
  - exact (@status_codes_are_classified_by_the_standard R example_objects
             (VObj 1) 200 ltac:(vm_compute; reflexivity) ltac:(lia)).
  - exact (@status_codes_are_classified_by_the_standard R example_objects
             (VObj 2) 204 ltac:(vm_compute; reflexivity) ltac:(lia)).
Defined.

(** X7 at work: the error object that has only a message. *)
Lemma response_without_status_is_failed_witness :
  let R := scripted [] example_answers in
  @classify R example_errors (VObj 7) = Some Failed.
Proof.
  intros R.
  exact (@response_without_status_is_failed R example_errors (VObj 7)
           VUndefined VUndefined ltac:(vm_compute; reflexivity) eq_refl
           ltac:(vm_compute; reflexivity) eq_refl).
Defined.

(** X8 at work: the error object whose nested response is the 204. *)
Lemma nested_2xx_is_success_even_204_witness :
  let R := scripted [] example_answers in
  @classify R example_errors (VObj 6) = Some Success.
Proof.
  intros R.
  exact (@nested_2xx_is_success_even_204 R example_errors (VObj 6)
           VUndefined (VObj 2) (VNum (Int 204))
           ltac:(vm_compute; reflexivity) eq_refl
           ltac:(vm_compute; reflexivity) eq_refl
           ltac:(vm_compute; reflexivity) ltac:(vm_compute; reflexivity)
           ltac:(vm_compute; reflexivity)).
Defined.

(** X9 at work: a transport that yields [null]. *)
Lemma null_response_throws_witness :
  let R := scripted [VNull] example_answers in
  @call R 1 example_builder 0 example_state = Threw example_dispatched.
Proof.
  intros R.
  exact (proj1 (proj2 (@null_response_throws R 0 example_builder 0
                         example_state example_request example_dispatched
                         ltac:(vm_compute; reflexivity)
                         ltac:(vm_compute; reflexivity)))).
Defined.

(** X10 at work: the example builder with a budget of [NaN], its refresh
    always succeeding, against a transport that always answers 401: a
    thousand units of fuel are not enough. *)
Lemma unbounded_budget_never_falls_back_witness :
  let R := constant (VObj 0) (VBool true) in
  let unbounded :=
    withMaxRetries (VNum NaN)
      (withRefreshTokenStrategy (VFun (User "refresh")) example_builder) in
  (validConfiguration unbounded).1 = true
  ∧ @call R 1000 unbounded 0 example_state = OutOfFuel.
Proof.
  intros R unbounded. split; [reflexivity|].
  refine (@unbounded_budget_never_falls_back R unbounded (User "refresh") 0
            eq_refl (or_introl eq_refl) eq_refl (λ _ _ _, eq_refl) _
            1000 0 example_state _).
  - intros tr σ. exists (VBool true). by split.
  - vm_compute. reflexivity.
Defined.

(** X11 at work: the default budget of 2 under a transport that keeps
    answering 401 to a caller who keeps refreshing. *)
Lemma send_terminates_for_every_integer_budget_witness :
  let R := constant (VObj 0) (VBool true) in
  let refreshing :=
    withRefreshTokenStrategy (VFun (User "refresh")) example_builder in
  ∃ st', final_state (@send R 3 refreshing example_state) = Some st'
       ∧ requests (trace st') ≤ requests (trace example_state) + 2.
Proof.
  intros R refreshing.
  exact (@send_terminates_for_every_integer_budget R refreshing 2 3
           example_state eq_refl ltac:(cbn; lia)).
Defined.

(** X12 at work: the example builder with a token and no headers object. *)
Lemma run_without_headers_object_only_allocates_witness :
  let R := scripted [VObj 1] example_answers in
  let bare :=
    withHeaders VNull (withAuthorization (VStr "t") example_builder) in
  ∃ st' new,
    final_state (@call R 1 bare 0 example_state) = Some st'
    ∧ heap st' = (example_objects ++ new)%list.
Proof.
  intros R bare.
  assert (∃ st', final_state (@call R 1 bare 0 example_state) = Some st')
    as [st' Hfin] by (eexists; vm_compute; reflexivity).
  destruct (@run_without_headers_object_only_allocates R bare 1 0
              example_state st' eq_refl Hfin) as [new Hnew].
  exists st', new. split; [exact Hfin|exact Hnew].
Defined.

(** X13 at work: the example builder, which has no token. *)
Lemma run_without_bearer_writes_nothing_witness :
  let R := scripted [VObj 1] example_answers in
  ∃ st', final_state (@call R 1 example_builder 0 example_state) = Some st'
       ∧ heap st' = example_objects.
Proof.
  intros R.
  assert (∃ st', final_state (@call R 1 example_builder 0 example_state)
                 = Some st')
    as [st' Hfin] by (eexists; vm_compute; reflexivity).
  destruct (@run_without_bearer_writes_nothing R example_builder 1 eq_refl
              0 example_state st' Hfin) as (k & Hheap & Hk).
  exists st'. split; [exact Hfin|].
  rewrite Hheap, (Hk eq_refl). apply app_nil_r.
Defined.

(** X16 at work: 42 between two functions. *)
Lemma non_function_side_effect_stops_the_run_witness :
  let R := scripted [] example_answers in
  (@forEach [VFun noop; VNum (Int 42); VFun failedStrategy_default]
     (λ f, @invoke R f [ArgValue (VObj 1)]);;
   @invoke R (VFun noop) [ArgValue (VObj 1)]) example_state
  = Threw (logged example_state [Called noop [ArgValue (VObj 1)]]).
Proof.
  intros R.
  refine (@non_function_side_effect_stops_the_run R [noop] (VNum (Int 42))
            [VFun failedStrategy_default] (VFun noop) [ArgValue (VObj 1)]
            example_state _ eq_refl).
  intros f tr σ Hf. apply list_elem_of_In in Hf. cbn in Hf.
  destruct Hf as [<-|[]]. cbn. eauto.
Defined.
